(** * Two-Dashboard AI Feedback System: the submission pipeline and its store

    A shallow embedding of [src/pages/1_User_Dashboard.py] and
    [src/pages/2_Admin_Dashboard.py].

    - Python [str] values are sequences of Unicode code points ([pystr]).
    - The calls into [json], [pandas], [streamlit] and the language model are
      modelled at the level the two scripts observe them; each model states
      what it covers where it is defined.  The data file is modelled by its
      data lines, and a frame by its rows of cells: what [to_csv] writes for
      a cell and what [read_csv] makes of a field are part of the model.
    - Effects (the data file, the clock, the model endpoint, Streamlit's cache
      and the rendered page) are threaded through an explicit [World]. *)

From Stdlib Require Import Strings.String Strings.Ascii Numbers.DecimalString.
From Stdlib Require Import List ZArith NArith Lia Bool Permutation Sorted.
From Stdlib Require Import DecimalZ DecimalPos.
Import ListNotations.

Set Implicit Arguments.

(* ================================================================== *)
(** ** Python strings *)

Module Py.

(** A Python [str]: its code points, in order. *)
Definition pystr := list N.

(** UTF-8 decoding of a byte sequence, used to read the literals of this file
    (the Python sources are UTF-8 as well). *)
Fixpoint utf8_decode (bs : list N) (need : nat) (acc : N) : pystr :=
  match bs with
  | [] => []
  | b :: bs' =>
    match need with
    | O =>
      if (b <? 128)%N then b :: utf8_decode bs' 0 0%N
      else if (b <? 224)%N then utf8_decode bs' 1 (b mod 32)%N
      else if (b <? 240)%N then utf8_decode bs' 2 (b mod 16)%N
      else utf8_decode bs' 3 (b mod 8)%N
    | S O => (acc * 64 + b mod 64)%N :: utf8_decode bs' 0 0%N
    | S k => utf8_decode bs' k (acc * 64 + b mod 64)%N
    end
  end.

(** A literal of the source text. *)
Definition lit (s : string) : pystr :=
  utf8_decode (List.map N_of_ascii (list_ascii_of_string s)) 0 0%N.
Arguments lit s%_string.

(** The double quote character, U+0022. *)
Definition DQ : pystr := [34%N].

(** [str.isspace] on one code point: the code points [str.strip()] removes. *)
Definition isspace (c : N) : bool :=
  ((9 <=? c) && (c <=? 13) || (28 <=? c) && (c <=? 32)
   || (c =? 133) || (c =? 160) || (c =? 5760)
   || (8192 <=? c) && (c <=? 8202)
   || (c =? 8232) || (c =? 8233) || (c =? 8239) || (c =? 8287)
   || (c =? 12288))%N.

Fixpoint lstrip (s : pystr) : pystr :=
  match s with
  | c :: s' => if isspace c then lstrip s' else s
  | [] => []
  end.

Definition rstrip (s : pystr) : pystr := rev (lstrip (rev s)).

(** [s.strip()] *)
Definition strip (s : pystr) : pystr := rstrip (lstrip s).

(** [s.startswith(p)] *)
Fixpoint startswith (p s : pystr) : bool :=
  match p, s with
  | [], _ => true
  | a :: p', b :: s' => (a =? b)%N && startswith p' s'
  | _ :: _, [] => false
  end.

(** [s.split(sep)] for a non-empty [sep]: the pieces between the successive
    non-overlapping occurrences of [sep], scanning from the left.  [skip]
    counts the characters of a matched separator still to be passed over and
    [cur] holds the current piece, reversed. *)
Fixpoint split_from (sep s : pystr) (skip : nat) (cur : pystr) : list pystr :=
  match s with
  | [] => [rev cur]
  | c :: s' =>
    match skip with
    | S k => split_from sep s' k cur
    | O =>
      if startswith sep s
      then rev cur :: split_from sep s' (length sep - 1) []
      else split_from sep s' 0 (c :: cur)
    end
  end.

Definition split (sep s : pystr) : list pystr := split_from sep s 0 [].

(** [str(n)] for an [int]. *)
Definition str_int (z : Z) : pystr := lit (NilZero.string_of_int (Z.to_int z)).

(** [not s] on a string: true exactly for the empty string. *)
Definition falsy (s : pystr) : bool :=
  match s with [] => true | _ => false end.

Definition eqb (a b : pystr) : bool :=
  if list_eq_dec N.eq_dec a b then true else false.

End Py.
Import Py.

(* ================================================================== *)
(** ** Exceptions and results *)

(** The exceptions the two scripts can meet.  [ModelError] stands for whatever
    the model endpoint raises (network failure, timeout, rejected key).
    [StopException] and [RerunException] are Streamlit's script-control
    exceptions, raised by [st.stop()] and [st.rerun()]. *)
Inductive exn : Type :=
| ModelError (msg : pystr)
| JSONDecodeError
| RecursionError
| AttributeError
| IndexError
| ValueError
| TypeError
| FileNotFoundError
| StopException
| RerunException.

(** [isinstance(e, Exception)]: the script-control exceptions derive from
    [BaseException] only. *)
Definition is_Exception (e : exn) : bool :=
  match e with
  | StopException | RerunException => false
  | _ => true
  end.

(** [str(e)]; the wording of the library exceptions is abridged. *)
Definition exn_str (e : exn) : pystr :=
  match e with
  | ModelError msg => msg
  | JSONDecodeError => lit "Expecting value"
  | RecursionError => lit "maximum recursion depth exceeded"
  | AttributeError => lit "object has no attribute 'get'"
  | IndexError => lit "list index out of range"
  | ValueError => lit "time data does not match format"
  | TypeError => lit "'float' object is not subscriptable"
  | FileNotFoundError => lit "[Errno 2] No such file or directory: 'data/reviews.csv'"
  | StopException | RerunException => []
  end.

Inductive res (A : Type) : Type :=
| Ok (a : A)
| Raise (e : exn).
Arguments Ok {A} a.
Arguments Raise {A} e.

(** Sequencing of steps that may raise. *)
Definition bind_res {A B} (r : res A) (k : A -> res B) : res B :=
  match r with
  | Ok a => k a
  | Raise e => Raise e
  end.

(* ================================================================== *)
(** ** [json.loads]

    The decoder of CPython's [json] package with its default settings
    (strict mode, no hooks), over the grammar it accepts: objects, arrays,
    strings with escapes, numbers, [true], [false], [null] and the constants
    [NaN], [Infinity] and [-Infinity].  A float keeps its lexeme.  Every
    decoding error is a [JSONDecodeError]; running out of [fuel] (one unit per
    nested value or list element, the text's length in all) stands for the
    interpreter's [RecursionError].  The limits of the interpreter itself
    (its recursion depth, the 4300 digits it accepts in an integer literal)
    are not modelled: beyond them the decoder raises where this model
    decodes. *)

Module Json.

(** The Python objects [json.loads] builds. *)
#[warnings="-register-all"]
Inductive pyobj : Type :=
| PNone
| PBool (b : bool)
| PInt (z : Z)
| PFloat (lexeme : pystr)
| PStr (s : pystr)
| PList (l : list pyobj)
| PDict (d : list (pystr * pyobj)).

(** [d[k] = v] on a dict kept in insertion order: a key already present keeps
    its place and takes the new value. *)
Fixpoint dict_set (d : list (pystr * pyobj)) (k : pystr) (v : pyobj)
  : list (pystr * pyobj) :=
  match d with
  | [] => [(k, v)]
  | (k', v') :: d' =>
    if Py.eqb k' k then (k', v) :: d' else (k', v') :: dict_set d' k v
  end.

Fixpoint dict_lookup (d : list (pystr * pyobj)) (k : pystr) : option pyobj :=
  match d with
  | [] => None
  | (k', v') :: d' => if Py.eqb k' k then Some v' else dict_lookup d' k
  end.

(** [data.get(key, default)]: defined on dicts; any other object has no
    [get] attribute. *)
Definition get (data : pyobj) (key : pystr) (default : pyobj) : res pyobj :=
  match data with
  | PDict d =>
    match dict_lookup d key with
    | Some v => Ok v
    | None => Ok default
    end
  | _ => Raise AttributeError
  end.

(** The decoder's whitespace: space, tab, line feed, carriage return. *)
Definition is_ws (c : N) : bool :=
  ((c =? 32) || (c =? 9) || (c =? 10) || (c =? 13))%N.

Fixpoint skip_ws (s : pystr) : pystr :=
  match s with
  | c :: s' => if is_ws c then skip_ws s' else s
  | [] => []
  end.

Definition is_digit (c : N) : bool := ((48 <=? c) && (c <=? 57))%N.

Definition hex_digit (c : N) : option N :=
  if is_digit c then Some (c - 48)%N
  else if ((97 <=? c) && (c <=? 102))%N then Some (c - 87)%N
  else if ((65 <=? c) && (c <=? 70))%N then Some (c - 55)%N
  else None.

Definition hex4 (a b c d : N) : option N :=
  match hex_digit a, hex_digit b, hex_digit c, hex_digit d with
  | Some x, Some y, Some z, Some w => Some (((x * 16 + y) * 16 + z) * 16 + w)%N
  | _, _, _, _ => None
  end.

(** The one-character escapes after a backslash. *)
Definition unescape (e : N) : option N :=
  if (e =? 34)%N then Some 34%N            (* quote *)
  else if (e =? 92)%N then Some 92%N       (* backslash *)
  else if (e =? 47)%N then Some 47%N       (* slash *)
  else if (e =? 98)%N then Some 8%N        (* b *)
  else if (e =? 102)%N then Some 12%N      (* f *)
  else if (e =? 110)%N then Some 10%N      (* n *)
  else if (e =? 114)%N then Some 13%N      (* r *)
  else if (e =? 116)%N then Some 9%N       (* t *)
  else None.

Definition is_high_surrogate (u : N) : bool := ((55296 <=? u) && (u <=? 56319))%N.
Definition is_low_surrogate (u : N) : bool := ((56320 <=? u) && (u <=? 57343))%N.

(** [scanstring], entered after the opening quote: the decoded string and
    the text after the closing quote.  [acc] is the decoded prefix, reversed. *)
Fixpoint scanstring (s : pystr) (acc : pystr) : option (pystr * pystr) :=
  match s with
  | [] => None
  | c :: s1 =>
    if (c =? 34)%N then Some (rev acc, s1)
    else if (c =? 92)%N then
      match s1 with
      | [] => None
      | e :: s2 =>
        if (e =? 117)%N then
          match s2 with
          | h1 :: h2 :: h3 :: h4 :: r =>
            match hex4 h1 h2 h3 h4 with
            | None => None
            | Some u =>
              match r with
              | b :: r1 =>
                match r1 with
                | v :: g1 :: g2 :: g3 :: g4 :: r2 =>
                  if is_high_surrogate u && (b =? 92)%N && (v =? 117)%N then
                    match hex4 g1 g2 g3 g4 with
                    | None => None
                    | Some u2 =>
                      if is_low_surrogate u2
                      then scanstring r2
                             ((65536 + ((u - 55296) * 1024 + (u2 - 56320)))%N :: acc)
                      else scanstring r (u :: acc)
                    end
                  else scanstring r (u :: acc)
                | _ =>
                  if is_high_surrogate u && (b =? 92)%N && startswith [117%N] r1
                  then None
                  else scanstring r (u :: acc)
                end
              | [] => scanstring r (u :: acc)
              end
            end
          | _ => None
          end
        else
          match unescape e with
          | Some ch => scanstring s2 (ch :: acc)
          | None => None
          end
      end
    else if (c <? 32)%N then None
    else scanstring s1 (c :: acc)
  end.

Fixpoint span_digits (s : pystr) : pystr * pystr :=
  match s with
  | c :: s' =>
    if is_digit c then let (ds, r) := span_digits s' in (c :: ds, r) else ([], s)
  | [] => ([], [])
  end.

(** [int(lexeme)] for a run of decimal digits. *)
Definition int_of_digits (ds : pystr) : Z :=
  fold_left (fun a c => (a * 10 + Z.of_N (c - 48))%Z) ds 0%Z.

(** The number pattern: an optional minus, [0] or a non-zero digit followed
    by digits, then an optional fraction (a dot and at least one digit) and an
    optional exponent ([e] or [E], an optional sign, at least one digit). *)
Definition match_number (s : pystr) : option (pyobj * pystr) :=
  let (neg, s1) :=
    match s with
    | c :: s' => if (c =? 45)%N then (true, s') else (false, s)
    | [] => (false, s)
    end in
  match s1 with
  | [] => None
  | d :: s2 =>
    if is_digit d then
      let (ipart, r) :=
        if (d =? 48)%N then ([d], s2)
        else let (ds, r) := span_digits s2 in (d :: ds, r) in
      let (frac, r1) :=
        match r with
        | p :: r' =>
          if (p =? 46)%N then
            match span_digits r' with
            | ([], _) => ([], r)
            | (ds, r'') => (p :: ds, r'')
            end
          else ([], r)
        | [] => ([], r)
        end in
      let (exp, r2) :=
        match r1 with
        | e :: r' =>
          if ((e =? 101) || (e =? 69))%N then
            let (sign, r'') :=
              match r' with
              | g :: t => if ((g =? 43) || (g =? 45))%N then ([g], t) else ([], r')
              | [] => ([], r')
              end in
            match span_digits r'' with
            | ([], _) => ([], r1)
            | (ds, r3) => (e :: sign ++ ds, r3)
            end
          else ([], r1)
        | [] => ([], r1)
        end in
      let sign := if neg then [45%N] else [] in
      match frac, exp with
      | [], [] =>
        Some (PInt (if neg then (- int_of_digits ipart)%Z else int_of_digits ipart), r2)
      | _, _ => Some (PFloat (sign ++ ipart ++ frac ++ exp), r2)
      end
    else None
  end.

(** [string[idx:idx+len(w)] == w], returning the text after [w]. *)
Definition keyword (w : pystr) (s : pystr) : option pystr :=
  if startswith w s then Some (skipn (length w) s) else None.

(** [scan_once], [JSONObject] and [JSONArray].  [parse_members] and
    [parse_elements] are the two [while True] loops; [d] and [l] hold what has
    been read so far. *)
Fixpoint scan_once (fuel : nat) (s : pystr) : res (pyobj * pystr) :=
  match fuel with
  | O => Raise RecursionError
  | S fuel' =>
    let parse_members :=
      fix parse_members (n : nat) (s : pystr) (d : list (pystr * pyobj))
        : res (pyobj * pystr) :=
        match n with
        | O => Raise RecursionError
        | S n' =>
          (* [s] starts after the opening quote of a key *)
          match scanstring s [] with
          | None => Raise JSONDecodeError
          | Some (key, s1) =>
            match skip_ws s1 with
            | c :: s2 =>
              if (c =? 58)%N then
                match scan_once fuel' (skip_ws s2) with
                | Raise e => Raise e
                | Ok (v, s3) =>
                  let d' := dict_set d key v in
                  match skip_ws s3 with
                  | c' :: s4 =>
                    if (c' =? 125)%N then Ok (PDict d', s4)
                    else if (c' =? 44)%N then
                      match skip_ws s4 with
                      | q :: s5 =>
                        if (q =? 34)%N then parse_members n' s5 d'
                        else Raise JSONDecodeError
                      | [] => Raise JSONDecodeError
                      end
                    else Raise JSONDecodeError
                  | [] => Raise JSONDecodeError
                  end
                end
              else Raise JSONDecodeError
            | [] => Raise JSONDecodeError
            end
          end
        end in
    let parse_elements :=
      fix parse_elements (n : nat) (s : pystr) (l : list pyobj)
        : res (pyobj * pystr) :=
        match n with
        | O => Raise RecursionError
        | S n' =>
          match scan_once fuel' s with
          | Raise e => Raise e
          | Ok (v, s1) =>
            match skip_ws s1 with
            | c :: s2 =>
              if (c =? 93)%N then Ok (PList (l ++ [v]), s2)
              else if (c =? 44)%N then parse_elements n' (skip_ws s2) (l ++ [v])
              else Raise JSONDecodeError
            | [] => Raise JSONDecodeError
            end
          end
        end in
    match s with
    | [] => Raise JSONDecodeError
    | c :: s' =>
      if (c =? 34)%N then
        match scanstring s' [] with
        | Some (str, r) => Ok (PStr str, r)
        | None => Raise JSONDecodeError
        end
      else if (c =? 123)%N then
        match skip_ws s' with
        | q :: s1 =>
          if (q =? 125)%N then Ok (PDict [], s1)
          else if (q =? 34)%N then parse_members fuel' s1 []
          else Raise JSONDecodeError
        | [] => Raise JSONDecodeError
        end
      else if (c =? 91)%N then
        match skip_ws s' with
        | q :: s1 =>
          if (q =? 93)%N then Ok (PList [], s1)
          else parse_elements fuel' (skip_ws s') []
        | [] => Raise JSONDecodeError
        end
      else
        match keyword (lit "null") s, keyword (lit "true") s, keyword (lit "false") s with
        | Some r, _, _ => Ok (PNone, r)
        | None, Some r, _ => Ok (PBool true, r)
        | None, None, Some r => Ok (PBool false, r)
        | None, None, None =>
          match match_number s with
          | Some (v, r) => Ok (v, r)
          | None =>
            match keyword (lit "NaN") s, keyword (lit "Infinity") s,
                  keyword (lit "-Infinity") s with
            | Some r, _, _ => Ok (PFloat (lit "NaN"), r)
            | None, Some r, _ => Ok (PFloat (lit "Infinity"), r)
            | None, None, Some r => Ok (PFloat (lit "-Infinity"), r)
            | None, None, None => Raise JSONDecodeError
            end
          end
        end
    end
  end.

(** [json.loads(s)]: refuse a leading byte-order mark, skip whitespace, decode
    one value, skip whitespace, and require the end of the text. *)
Definition loads (s : pystr) : res pyobj :=
  if startswith [65279%N] s then Raise JSONDecodeError
  else
    match scan_once (S (length s)) (skip_ws s) with
    | Raise e => Raise e
    | Ok (v, r) =>
      match skip_ws r with
      | [] => Ok v
      | _ :: _ => Raise JSONDecodeError
      end
    end.

End Json.

(* ================================================================== *)
(** ** Dates and times *)

Module Time.

(** A [datetime.datetime] (naive, as [datetime.now()] returns it). *)
Record datetime : Type := mkDatetime {
  year : Z; month : Z; day : Z;
  hour : Z; minute : Z; second : Z; microsecond : Z
}.

Definition is_leap (y : Z) : bool :=
  ((y mod 4 =? 0) && (negb (y mod 100 =? 0) || (y mod 400 =? 0)))%Z.

Definition days_in_month (y m : Z) : Z :=
  if (m =? 2)%Z then (if is_leap y then 29 else 28)%Z
  else if ((m =? 4) || (m =? 6) || (m =? 9) || (m =? 11))%Z then 30%Z
  else 31%Z.

(** The ranges every [datetime] object satisfies. *)
Definition valid (d : datetime) : Prop :=
  (1 <= year d <= 9999 /\ 1 <= month d <= 12
   /\ 1 <= day d <= days_in_month (year d) (month d)
   /\ 0 <= hour d < 24 /\ 0 <= minute d < 60 /\ 0 <= second d < 60
   /\ 0 <= microsecond d < 1000000)%Z.

(** Zero-padded decimal fields of [strftime]: [%m], [%d], [%H], [%M], [%S]
    (two digits) and [%Y] (four digits; for years below 1000 the padding
    depends on the platform's C library, and the theorems below that read a
    formatted year back are about later years). *)
Definition digit (n : Z) : N := (48 + Z.to_N (n mod 10))%N.
Definition pad2 (n : Z) : pystr := [digit (n / 10); digit n].
Definition pad4 (n : Z) : pystr :=
  [digit (n / 1000); digit (n / 100); digit (n / 10); digit n].

(** [d.strftime("%Y-%m-%d %H:%M:%S")] *)
Definition strftime (d : datetime) : pystr :=
  pad4 (year d) ++ [45%N] ++ pad2 (month d) ++ [45%N] ++ pad2 (day d)
  ++ [32%N] ++ pad2 (hour d) ++ [58%N] ++ pad2 (minute d) ++ [58%N]
  ++ pad2 (second d).

(** [d.strftime('%Y-%m-%d %H:%M')] *)
Definition strftime_minutes (d : datetime) : pystr :=
  pad4 (year d) ++ [45%N] ++ pad2 (month d) ++ [45%N] ++ pad2 (day d)
  ++ [32%N] ++ pad2 (hour d) ++ [58%N] ++ pad2 (minute d).

Definition digit_val (c : N) : option Z :=
  if Json.is_digit c then Some (Z.of_N (c - 48)) else None.

Definition num2 (a b : N) : option Z :=
  match digit_val a, digit_val b with
  | Some x, Some y => Some (x * 10 + y)%Z
  | _, _ => None
  end.

Definition num4 (a b c d : N) : option Z :=
  match num2 a b, num2 c d with
  | Some x, Some y => Some (x * 100 + y)%Z
  | _, _ => None
  end.

Definition in_range (d : datetime) : bool :=
  ((1678 <=? year d) && (year d <=? 2261) && (1 <=? month d) && (month d <=? 12)
   && (1 <=? day d) && (day d <=? days_in_month (year d) (month d))
   && (0 <=? hour d) && (hour d <? 24) && (0 <=? minute d) && (minute d <? 60)
   && (0 <=? second d) && (second d <? 60))%Z.

(** [pd.to_datetime] on one cell of the timestamp column.  The model covers
    the one format the pipeline writes, [YYYY-MM-DD HH:MM:SS], and the years
    1678 to 2261, which the 64-bit nanosecond counts pandas keeps datetimes
    in cover in full.  Any other text is reported as a [ValueError]; pandas
    reads more formats, and its later versions more years. *)
Definition to_datetime (s : pystr) : res datetime :=
  match s with
  | [y1; y2; y3; y4; h1; m1; m2; h2; d1; d2; sp; H1; H2; c1; M1; M2; c2; S1; S2] =>
    if ((h1 =? 45) && (h2 =? 45) && (sp =? 32) && (c1 =? 58) && (c2 =? 58))%N then
      match num4 y1 y2 y3 y4, num2 m1 m2, num2 d1 d2,
            num2 H1 H2, num2 M1 M2, num2 S1 S2 with
      | Some y, Some m, Some d, Some hh, Some mi, Some ss =>
        let t := mkDatetime y m d hh mi ss 0 in
        if in_range t then Ok t else Raise ValueError
      | _, _, _, _, _, _ => Raise ValueError
      end
    else Raise ValueError
  | _ => Raise ValueError
  end.

(** [d.toordinal()]: days since 0001-01-01, which is day 1. *)
Definition days_before_year (y : Z) : Z :=
  let p := (y - 1)%Z in (p * 365 + p / 4 - p / 100 + p / 400)%Z.

Definition DAYS_BEFORE_MONTH : list Z :=
  [-1; 0; 31; 59; 90; 120; 151; 181; 212; 243; 273; 304; 334]%Z.

Definition DAYS_IN_MONTH : list Z :=
  [-1; 31; 28; 31; 30; 31; 30; 31; 31; 30; 31; 30; 31]%Z.

Definition days_before_month (y m : Z) : Z :=
  (nth (Z.to_nat m) DAYS_BEFORE_MONTH 0 + (if (2 <? m) && is_leap y then 1 else 0))%Z.

Definition toordinal (d : datetime) : Z :=
  (days_before_year (year d) + days_before_month (year d) (month d) + day d)%Z.

(** [date.fromordinal(n)], as the standard library computes it from the
    400-, 100-, 4- and 1-year cycles. *)
Definition fromordinal (n : Z) : Z * Z * Z :=
  let n := (n - 1)%Z in
  let n400 := (n / 146097)%Z in let n := (n mod 146097)%Z in
  let n100 := (n / 36524)%Z in let n := (n mod 36524)%Z in
  let n4 := (n / 1461)%Z in let n := (n mod 1461)%Z in
  let n1 := (n / 365)%Z in let n := (n mod 365)%Z in
  let y := (n400 * 400 + 1 + n100 * 100 + n4 * 4 + n1)%Z in
  if ((n1 =? 4) || (n100 =? 4))%Z then ((y - 1)%Z, 12%Z, 31%Z)
  else
    let leapyear := ((n1 =? 3) && (negb (n4 =? 24) || (n100 =? 3)))%Z in
    let m := ((n + 50) / 32)%Z in
    let preceding :=
      (nth (Z.to_nat m) DAYS_BEFORE_MONTH 0
       + (if (2 <? m) && leapyear then 1 else 0))%Z in
    if (n <? preceding)%Z then
      let m' := (m - 1)%Z in
      let preceding' :=
        (preceding - (nth (Z.to_nat m') DAYS_IN_MONTH 0
                      + (if (m' =? 2) && leapyear then 1 else 0)))%Z in
      (y, m', (n - preceding' + 1)%Z)
    else (y, m, (n - preceding + 1)%Z).

(** [d - timedelta(days=k)] *)
Definition minus_days (d : datetime) (k : Z) : datetime :=
  let '(y, m, dd) := fromordinal (toordinal d - k) in
  mkDatetime y m dd (hour d) (minute d) (second d) (microsecond d).

(** [a < b] on datetimes. *)
Definition key (d : datetime) : list Z :=
  [year d; month d; day d; hour d; minute d; second d; microsecond d].

Fixpoint lex_ltb (a b : list Z) : bool :=
  match a, b with
  | x :: a', y :: b' => (x <? y)%Z || ((x =? y)%Z && lex_ltb a' b')
  | _, _ => false
  end.

Definition ltb (a b : datetime) : bool := lex_ltb (key a) (key b).

(** [a.date() == b.date()] *)
Definition same_date (a b : datetime) : bool :=
  ((year a =? year b) && (month a =? month b) && (day a =? day b))%Z.

End Time.

(* ================================================================== *)
(** ** pandas: the cells of a frame and the CSV text codec

    [df.to_csv(DATA_FILE, index=False)] writes every cell as text, and
    [pd.read_csv(DATA_FILE)] reads the text back with its default settings:
    a field that is one of the missing-value markers becomes NaN, and each
    column is given the narrowest type all of its fields fit (integer, then
    floating point, then boolean, else the fields stay strings).  So a
    round trip through the file keeps a text only when the text is not a
    marker, a numeral or a boolean word.

    What this model covers.
    - It is exact on texts, on missing-value markers, on integer numerals of
      up to 64 bits and on boolean words.
    - It is approximate on floating-point numerals (a float keeps its
      lexeme, where Python prints the shortest representation that reads
      back), on integer numerals beyond 64 bits, and on the [repr] of lists
      and dicts (characters outside ASCII are taken to be printable).
    - The quoting of fields is abstracted: a data line of the file is
      represented by the texts of its fields.  The [csv] writer quotes a
      field that holds a comma, a quote or a line feed, and the reader undoes
      it.  On Linux it leaves a bare carriage return unquoted, which the
      reader takes for the end of the line; texts with a carriage return, a
      NUL or a code point that is not a Unicode scalar value are therefore
      outside the model, and the theorems about the stored texts exclude
      them ([writable], below). *)

Module Pandas.

Import Json.

(** NaN, the value of a missing cell. *)
Definition NaN : pyobj := PFloat (lit "NaN").

(** [pd.isna] on one cell. *)
Definition is_missing (c : pyobj) : bool :=
  match c with
  | PNone => true
  | PFloat lexeme => Py.eqb lexeme (lit "NaN")
  | _ => false
  end.

Definition hex_char (n : N) : N :=
  if (n <? 10)%N then (48 + n)%N else (87 + n)%N.

(** One character inside the quotes of [repr(s)], for the quote [q]. *)
Definition repr_char (q c : N) : pystr :=
  if (c =? 92)%N then [92; 92]%N
  else if (c =? q)%N then [92%N; q]
  else if (c =? 10)%N then [92; 110]%N
  else if (c =? 13)%N then [92; 114]%N
  else if (c =? 9)%N then [92; 116]%N
  else if ((c <? 32) || (c =? 127))%N
       then [92%N; 120%N; hex_char (c / 16); hex_char (c mod 16)]
  else [c].

(** [repr(s)] for a [str]: single quotes, unless the text holds a single
    quote and no double quote. *)
Definition repr_str (s : pystr) : pystr :=
  let q := if existsb (N.eqb 39) s && negb (existsb (N.eqb 34) s)
           then 34%N else 39%N in
  [q] ++ flat_map (repr_char q) s ++ [q].

Fixpoint join (sep : pystr) (l : list pystr) : pystr :=
  match l with
  | [] => []
  | [x] => x
  | x :: l' => x ++ sep ++ join sep l'
  end.

(** [str(x)] for a float given by its lexeme. *)
Definition float_text (lexeme : pystr) : pystr :=
  if Py.eqb lexeme (lit "Infinity") then lit "inf"
  else if Py.eqb lexeme (lit "-Infinity") then lit "-inf"
  else if Py.eqb lexeme (lit "NaN") then lit "nan"
  else lexeme.

(** [repr(x)] *)
Fixpoint py_repr (x : pyobj) : pystr :=
  match x with
  | PNone => lit "None"
  | PBool true => lit "True"
  | PBool false => lit "False"
  | PInt z => str_int z
  | PFloat lexeme => float_text lexeme
  | PStr s => repr_str s
  | PList l => lit "[" ++ join (lit ", ") (map py_repr l) ++ lit "]"
  | PDict d =>
    lit "{"
    ++ join (lit ", ")
         (map (fun kv => repr_str (fst kv) ++ lit ": " ++ py_repr (snd kv)) d)
    ++ lit "}"
  end.

(** The text [to_csv] writes for one cell: nothing for a missing value,
    [str(x)] otherwise. *)
Definition cell_text (c : pyobj) : pystr :=
  if is_missing c then []
  else
    match c with
    | PStr s => s
    | _ => py_repr c
    end.

(** The fields [read_csv] takes for a missing value. *)
Definition NA_VALUES : list pystr :=
  Eval vm_compute in
    [[]; lit "#N/A"; lit "#N/A N/A"; lit "#NA"; lit "-1.#IND"; lit "-1.#QNAN";
     lit "-NaN"; lit "-nan"; lit "1.#IND"; lit "1.#QNAN"; lit "<NA>";
     lit "N/A"; lit "NA"; lit "NULL"; lit "NaN"; lit "None"; lit "n/a";
     lit "nan"; lit "null"].

Definition is_na (t : pystr) : bool := existsb (Py.eqb t) NA_VALUES.

(** The blanks the numeric conversions skip at both ends of a field. *)
Definition c_space (c : N) : bool :=
  ((c =? 32) || (9 <=? c) && (c <=? 13))%N.

Fixpoint skip_space (s : pystr) : pystr :=
  match s with
  | c :: s' => if c_space c then skip_space s' else s
  | [] => []
  end.

(** The characters a decimal numeral is made of: digits, signs, the point,
    the exponent marker and blanks. *)
Definition numeral_char (c : N) : bool :=
  (is_digit c || (c =? 43) || (c =? 45) || (c =? 46) || (c =? 101) || (c =? 69))%N
  || c_space c.

Definition is_sign (c : N) : bool := ((c =? 43) || (c =? 45))%N.

(** A field read as an integer: blanks, an optional sign, digits, blanks. *)
Definition int_syntax (t : pystr) : option Z :=
  let s := skip_space t in
  let (neg, s1) :=
    match s with
    | c :: s' => if is_sign c then ((c =? 45)%N, s') else (false, s)
    | [] => (false, s)
    end in
  match span_digits s1 with
  | ([], _) => None
  | (ds, r) =>
    match skip_space r with
    | [] => Some (if neg then (- int_of_digits ds)%Z else int_of_digits ds)
    | _ :: _ => None
    end
  end.

Definition int64 (z : Z) : bool :=
  ((- 9223372036854775808 <=? z) && (z <=? 9223372036854775807))%Z.

(** A field read as a float: blanks, an optional sign, digits with an
    optional point, an optional exponent, blanks; at least one digit. *)
Definition float_syntax (t : pystr) : bool :=
  let s := skip_space t in
  let s1 := match s with
            | c :: s' => if is_sign c then s' else s
            | [] => s
            end in
  let (ip, r) := span_digits s1 in
  let (fp, r1) :=
    match r with
    | c :: r' => if (c =? 46)%N then span_digits r' else ([], r)
    | [] => ([], r)
    end in
  match ip ++ fp with
  | [] => false
  | _ :: _ =>
    let r2 :=
      match r1 with
      | c :: r' =>
        if ((c =? 101) || (c =? 69))%N then
          let r'' := match r' with
                     | g :: u => if is_sign g then u else r'
                     | [] => r'
                     end in
          match span_digits r'' with
          | ([], _) => r1
          | (_, r3) => r3
          end
        else r1
      | [] => r1
      end in
    match skip_space r2 with
    | [] => true
    | _ :: _ => false
    end
  end.

Definition lower (c : N) : N :=
  if ((65 <=? c) && (c <=? 90))%N then (c + 32)%N else c.

(** The spellings of infinity, compared without regard to case. *)
Definition INF_WORDS : list pystr :=
  Eval vm_compute in
    [lit "inf"; lit "+inf"; lit "-inf";
     lit "infinity"; lit "+infinity"; lit "-infinity"].

Definition inf_word (t : pystr) : bool :=
  existsb (Py.eqb (map lower t)) INF_WORDS.

Definition TRUE_VALUES : list pystr :=
  Eval vm_compute in [lit "True"; lit "TRUE"; lit "true"].

Definition FALSE_VALUES : list pystr :=
  Eval vm_compute in [lit "False"; lit "FALSE"; lit "false"].

Definition bool_word (t : pystr) : option bool :=
  if existsb (Py.eqb t) TRUE_VALUES then Some true
  else if existsb (Py.eqb t) FALSE_VALUES then Some false
  else None.

(** What one field can be read as. *)
Inductive kind : Type :=
| KNa
| KInt (z : Z)
| KFloat
| KBool (b : bool)
| KText.

Definition classify (t : pystr) : kind :=
  if is_na t then KNa
  else if forallb numeral_char t then
    match int_syntax t with
    | Some z => if int64 z then KInt z else KText
    | None => if float_syntax t then KFloat else KText
    end
  else if inf_word t then KFloat
  else
    match bool_word t with
    | Some b => KBool b
    | None => KText
    end.

Definition is_int (k : kind) : bool :=
  match k with KInt _ => true | _ => false end.

Definition is_number_or_na (k : kind) : bool :=
  match k with KInt _ | KFloat | KNa => true | _ => false end.

Definition is_bool_or_na (k : kind) : bool :=
  match k with KBool _ | KNa => true | _ => false end.

(** The cell a field becomes in a column of each type. *)
Definition int_cell (t : pystr) : pyobj :=
  match classify t with
  | KInt z => PInt z
  | _ => PStr t
  end.

Definition float_cell (t : pystr) : pyobj :=
  match classify t with
  | KInt z => PFloat (str_int z ++ lit ".0")
  | KNa => NaN
  | _ =>
    if inf_word t
    then PFloat (if startswith [45%N] t then lit "-Infinity" else lit "Infinity")
    else PFloat (skip_space (rev (skip_space (rev t))))
  end.

Definition bool_cell (t : pystr) : pyobj :=
  match classify t with
  | KBool b => PBool b
  | _ => NaN
  end.

Definition object_cell (t : pystr) : pyobj :=
  if is_na t then NaN else PStr t.

(** The type inference of [read_csv] on one column of fields: integers if
    every field is an integer; floats if every field is a number or missing;
    booleans if every field is a boolean word or missing; strings
    otherwise. *)
Definition infer (col : list pystr) : list pyobj :=
  let ks := map classify col in
  if forallb is_int ks then map int_cell col
  else if forallb is_number_or_na ks then map float_cell col
  else if forallb is_bool_or_na ks then map bool_cell col
  else map object_cell col.

(** Numeric columns are promoted together by [pd.concat]: an integer
    column joined with a float becomes a float column. *)
Definition is_number (c : pyobj) : bool :=
  match c with PInt _ | PFloat _ => true | _ => false end.

Definition is_float (c : pyobj) : bool :=
  match c with PFloat _ => true | _ => false end.

Definition as_float (c : pyobj) : pyobj :=
  match c with
  | PInt z => PFloat (str_int z ++ lit ".0")
  | _ => c
  end.

(** Whether a stored column and the cell appended to it make a float
    column.  A frame without rows does not take part. *)
Definition promotes (col : list pyobj) (new : pyobj) : bool :=
  match col with
  | [] => false
  | _ :: _ => forallb is_number (new :: col) && existsb is_float (new :: col)
  end.

End Pandas.

(* ================================================================== *)
(** ** The shared world: data file, clock, model endpoint, cache, page *)

Module App.

Import Json Time Pandas.

(** One row of a [DataFrame] over the six columns both scripts create the
    data file with.  [T] is the type of the timestamp cell: text as the file
    holds it, a datetime once [load_data] has converted the column.  The
    rating is an integer.  The cells of the four text columns are Python
    objects: a [str] as a rule, but also whatever the analyzer decoded from
    the model's JSON, and what [read_csv] makes of a field (a number, a
    boolean, NaN for a missing value). *)
Record Row (T : Type) : Type := mkRow {
  timestamp : T;
  rating : Z;
  review : pyobj;
  ai_response : pyobj;
  ai_summary : pyobj;
  recommended_actions : pyobj
}.

(** A [DataFrame] over the six columns: its rows, in index order. *)
Definition DataFrame (T : Type) : Type := list (Row T).

(** One data line of [data/reviews.csv]: the texts of its six fields.  The
    rating field is an integer numeral and is kept by its value; the
    timestamp field is a date text and is kept as text. *)
Record Line : Type := mkLine {
  line_timestamp : pystr;
  line_rating : Z;
  line_review : pystr;
  line_ai_response : pystr;
  line_ai_summary : pystr;
  line_recommended_actions : pystr
}.

(** What Streamlit renders. *)
Inductive element : Type :=
| st_error (body : pystr)
| st_warning (body : pystr)
| st_success (body : pystr)
| st_info (body : pystr)
| st_markdown (body : pystr)
| st_balloons
| st_expander (label : pystr)
| st_download_button (label : pystr) (data : DataFrame datetime)
| st_exception (e : exn).

(** The state the two scripts run against.
    - [data_file]: the data lines of [data/reviews.csv] under its header row
      with the six column names, [None] when the file does not exist.
    - [clock]: what [datetime.now()] returns.
    - [endpoint]: the language model, an arbitrary function of the number of
      calls made so far and of the prompt; it answers with the completion
      text or raises.  [sent] logs the prompts sent.
    - [timer], [cache]: the time base of [st.cache_data] in seconds and the
      cached value of [load_data] with its creation time.
    - [page]: the elements rendered so far. *)
Record World : Type := mkWorld {
  data_file : option (list Line);
  clock : datetime;
  endpoint : nat -> pystr -> res pystr;
  sent : list pystr;
  timer : Z;
  cache : option (Z * DataFrame datetime);
  page : list element
}.

Definition set_data_file (f : option (list Line)) (w : World) : World :=
  mkWorld f (clock w) (endpoint w) (sent w) (timer w) (cache w) (page w).
Definition set_sent (l : list pystr) (w : World) : World :=
  mkWorld (data_file w) (clock w) (endpoint w) l (timer w) (cache w) (page w).
Definition set_cache (c : option (Z * DataFrame datetime)) (w : World) : World :=
  mkWorld (data_file w) (clock w) (endpoint w) (sent w) (timer w) c (page w).
Definition set_page (p : list element) (w : World) : World :=
  mkWorld (data_file w) (clock w) (endpoint w) (sent w) (timer w) (cache w) p.

(** The records the store holds, as the file has them: none when the file
    does not exist. *)
Definition records (w : World) : list Line :=
  match data_file w with
  | Some ls => ls
  | None => []
  end.

(** Script code: it reads and updates the world and returns or raises.  A
    raise keeps the effects made before it. *)
Definition M (A : Type) : Type := World -> res A * World.

Definition ret {A} (a : A) : M A := fun w => (Ok a, w).
Definition raise {A} (e : exn) : M A := fun w => (Raise e, w).
Definition bind {A B} (c : M A) (k : A -> M B) : M B :=
  fun w =>
    match c w with
    | (Ok a, w') => k a w'
    | (Raise e, w') => (Raise e, w')
    end.
Definition lift {A} (r : res A) : M A := fun w => (r, w).

(** [try: body except Exception as e: handler(e)] *)
Definition try_except {A} (body : M A) (handler : exn -> M A) : M A :=
  fun w =>
    match body w with
    | (Ok a, w') => (Ok a, w')
    | (Raise e, w') => if is_Exception e then handler e w' else (Raise e, w')
    end.

Declare Scope script_scope.
Delimit Scope script_scope with script.
Notation "x <- c ;; k" := (bind c (fun x => k))
  (at level 61, c at next level, right associativity) : script_scope.
Notation "c ;;; k" := (bind c (fun _ => k))
  (at level 61, right associativity) : script_scope.
Open Scope script_scope.

(** Rendering calls append to the page. *)
Definition render (e : element) : M unit :=
  fun w => (Ok tt, set_page (page w ++ [e]) w).

(** [datetime.now()] *)
Definition datetime_now : M datetime := fun w => (Ok (clock w), w).

(** [os.path.exists(DATA_FILE)] *)
Definition path_exists : M bool :=
  fun w => (Ok (match data_file w with Some _ => true | None => false end), w).

(** The frame the reader builds from the data lines: the four text columns
    go through the type inference, column by column. *)
Fixpoint build (ls : list Line) (c1 c2 c3 c4 : list pyobj) : DataFrame pystr :=
  match ls, c1, c2, c3, c4 with
  | l :: ls', x1 :: c1', x2 :: c2', x3 :: c3', x4 :: c4' =>
    mkRow (line_timestamp l) (line_rating l) x1 x2 x3 x4
    :: build ls' c1' c2' c3' c4'
  | _, _, _, _, _ => []
  end.

Definition parse_lines (ls : list Line) : DataFrame pystr :=
  build ls
    (infer (map line_review ls))
    (infer (map line_ai_response ls))
    (infer (map line_ai_summary ls))
    (infer (map line_recommended_actions ls)).

(** The data line the writer makes of one row. *)
Definition format_row (row : Row pystr) : Line :=
  mkLine (timestamp row) (rating row)
    (cell_text (review row)) (cell_text (ai_response row))
    (cell_text (ai_summary row)) (cell_text (recommended_actions row)).

(** [pd.read_csv(DATA_FILE)] *)
Definition read_csv : M (DataFrame pystr) :=
  fun w =>
    match data_file w with
    | Some ls => (Ok (parse_lines ls), w)
    | None => (Raise FileNotFoundError, w)
    end.

(** [df.to_csv(DATA_FILE, index=False)] *)
Definition to_csv (df : DataFrame pystr) : M unit :=
  fun w => (Ok tt, set_data_file (Some (map format_row df)) w).

(** [pd.concat([df, pd.DataFrame([new_row])], ignore_index=True)] on frames
    with the same six columns: the rows of [df] followed by the new row,
    with the numeric columns promoted. *)
Definition promote {T} (p1 p2 p3 p4 : bool) (row : Row T) : Row T :=
  mkRow (timestamp row) (rating row)
    (if p1 then as_float (review row) else review row)
    (if p2 then as_float (ai_response row) else ai_response row)
    (if p3 then as_float (ai_summary row) else ai_summary row)
    (if p4 then as_float (recommended_actions row) else recommended_actions row).

Definition concat {T} (df : DataFrame T) (new_row : Row T) : DataFrame T :=
  let p1 := promotes (map (@review T) df) (review new_row) in
  let p2 := promotes (map (@ai_response T) df) (ai_response new_row) in
  let p3 := promotes (map (@ai_summary T) df) (ai_summary new_row) in
  let p4 := promotes (map (@recommended_actions T) df)
              (recommended_actions new_row) in
  map (promote p1 p2 p3 p4) (df ++ [new_row]).

(** The start of both scripts: create the data file, with the six columns
    and no rows, if it does not exist. *)
Definition initialize_csv : M unit :=
  ex <- path_exists ;;
  if negb ex then to_csv [] else ret tt.

(** [chain.invoke(...)] for [chain = prompt | llm], given the formatted
    prompt: one call to the model, returning [response.content]. *)
Definition invoke (prompt : pystr) : M pystr :=
  fun w =>
    (endpoint w (length (sent w)) prompt, set_sent (sent w ++ [prompt]) w).

End App.
(* ================================================================== *)
(** ** [pages/1_User_Dashboard.py] *)

Module UserDashboard.

Import Json Time Pandas App.

(** The prompt of [generate_ai_response], formatted. *)
Definition response_prompt (rating : Z) (review : pystr) : pystr :=
  lit "You are a friendly customer service AI. A customer left a "
  ++ str_int rating ++ lit "-star review.

Review: " ++ review ++ lit "

Generate a warm, professional response that:
- Thanks them for their feedback
- Acknowledges their specific points
- If positive (4-5 stars): Express appreciation
- If negative (1-2 stars): Apologize and show empathy
- If neutral (3 stars): Thank them and ask for more details

Keep it brief (2-3 sentences) and genuine.

Response:".

Definition generate_ai_response (rating : Z) (review : pystr) : M pystr :=
  content <- invoke (response_prompt rating review) ;;
  ret (strip content).

(** The prompt of [generate_summary_and_actions], formatted. *)
Definition analysis_prompt (rating : Z) (review : pystr) : pystr :=
  lit "Analyze this customer review and provide insights for the admin team.

Rating: " ++ str_int rating ++ lit " stars
Review: " ++ review ++ lit "

Provide your analysis in this exact JSON format:
{
    " ++ DQ ++ lit "summary" ++ DQ ++ lit ": " ++ DQ
  ++ lit "One-sentence summary of the review" ++ DQ ++ lit ",
    " ++ DQ ++ lit "recommended_actions" ++ DQ ++ lit ": " ++ DQ
  ++ lit "Specific action items for the team (be concrete and actionable)"
  ++ DQ ++ lit "
}

Response:".

(** [l[i]] *)
Definition index {A} (l : list A) (i : nat) : res A :=
  match nth_error l i with
  | Some a => Ok a
  | None => Raise IndexError
  end.

(** The code-fence markers. *)
Definition FENCE : pystr := lit "```".
Definition FENCE_JSON : pystr := lit "```json".

(** Lines 101 to 106: trim the response and take the text inside an
    enclosing code fence. *)
Definition unfence (response_content : pystr) : res pystr :=
  let content := strip response_content in
  if startswith FENCE_JSON content then
    bind_res (index (split FENCE_JSON content) 1) (fun part =>
    index (split FENCE part) 0)
  else if startswith FENCE content then
    bind_res (index (split FENCE content) 1) (fun part =>
    index (split FENCE part) 0)
  else Ok content.

(** The body of the [try] block of [generate_summary_and_actions], lines 101
    to 109: each step either yields a value or raises. *)
Definition parse_response (response_content : pystr) : res (pyobj * pyobj) :=
  bind_res (unfence response_content) (fun content =>
  bind_res (loads (strip content)) (fun data =>
  bind_res (get data (lit "summary") (PStr (lit "Summary not available")))
    (fun summary =>
  bind_res (get data (lit "recommended_actions")
              (PStr (lit "Actions not available"))) (fun actions =>
  Ok (summary, actions))))).

(** The [except:] branch, lines 112 to 114. *)
Definition fallback (rating : Z) : pyobj * pyobj :=
  (PStr (str_int rating ++ lit "-star review requiring attention"),
   PStr (lit "Review manually and respond appropriately")).

(** Lines 99 to 114, given the model's response: the bare [except:] catches
    whatever the [try] block raises. *)
Definition summary_and_actions_of (rating : Z) (response_content : pystr)
  : pyobj * pyobj :=
  match parse_response response_content with
  | Ok p => p
  | Raise _ => fallback rating
  end.

(** The model call of line 97 is outside the [try] block. *)
Definition generate_summary_and_actions (rating : Z) (review : pystr)
  : M (pyobj * pyobj) :=
  content <- invoke (analysis_prompt rating review) ;;
  ret (summary_and_actions_of rating content).

(** The one-row frame [pd.DataFrame([new_row])] of [save_review]. *)
Definition new_row (now : datetime) (rating : Z) (review ai_response : pystr)
    (ai_summary recommended_actions : pyobj) : Row pystr :=
  mkRow (strftime now) rating (PStr review) (PStr ai_response)
    ai_summary recommended_actions.

Definition save_review (rating : Z) (review ai_response : pystr)
    (ai_summary recommended_actions : pyobj) : M unit :=
  now <- datetime_now ;;
  let row := new_row now rating review ai_response ai_summary recommended_actions in
  df <- read_csv ;;
  let df := concat df row in
  to_csv df.

Definition MSG_EMPTY : pystr := lit "⚠️ Please write a review before submitting.".
Definition MSG_THANKS : pystr := lit "✅ Thank you for your review!".
Definition MSG_OUR_RESPONSE : pystr := lit "### 💬 Our Response".
Definition MSG_ERROR (e : exn) : pystr := lit "❌ An error occurred: " ++ exn_str e.
Definition MSG_RETRY : pystr := lit "Please try again or contact support.".

(** The form submission handler, lines 177 to 205 (the body of
    [if submitted:]). *)
Definition on_submit (rating : Z) (review_text : pystr) : M unit :=
  if falsy (strip review_text) then render (st_error MSG_EMPTY)
  else
    try_except
      (ai_response <- generate_ai_response rating review_text ;;
       p <- generate_summary_and_actions rating review_text ;;
       let (ai_summary, recommended_actions) := p in
       save_review rating review_text ai_response ai_summary recommended_actions ;;;
       render (st_success MSG_THANKS) ;;;
       render (st_markdown (lit "---")) ;;;
       render (st_markdown MSG_OUR_RESPONSE) ;;;
       render (st_info ai_response) ;;;
       if (rating =? 5)%Z then render st_balloons else ret tt)
      (fun e =>
         render (st_error (MSG_ERROR e)) ;;;
         render (st_error MSG_RETRY)).

(** The values of the form's widgets in one run of the script. *)
Record form : Type := mkForm {
  form_rating : Z;
  review_text : pystr;
  submitted : bool
}.

(** One run of the script, from the creation of the data file on.  The
    static parts of the page (title, the form's widgets, footer, sidebar
    statistics) only render or read and are left out; so is [get_llm], which
    stops the script before this point when no API key is configured. *)
Definition script (f : form) : M unit :=
  initialize_csv ;;;
  if submitted f then on_submit (form_rating f) (review_text f) else ret tt.

End UserDashboard.

(* ================================================================== *)
(** ** [pages/2_Admin_Dashboard.py] *)

Module AdminDashboard.

Import Json Time Pandas App.

(** [pd.to_datetime(df['timestamp'])], column-wise: one cell that does not
    parse makes the whole conversion raise. *)
Definition convert_row (row : Row pystr) : res (Row datetime) :=
  match to_datetime (timestamp row) with
  | Ok d =>
    Ok (mkRow d (rating row) (review row) (ai_response row)
          (ai_summary row) (recommended_actions row))
  | Raise e => Raise e
  end.

Fixpoint to_datetime_column (df : DataFrame pystr) : res (DataFrame datetime) :=
  match df with
  | [] => Ok []
  | row :: df' =>
    match convert_row row, to_datetime_column df' with
    | Ok r, Ok rs => Ok (r :: rs)
    | Raise e, _ => Raise e
    | _, Raise e => Raise e
    end
  end.

(** The body of [load_data], lines 41 to 46.  A frame without rows is
    returned as read; [pd.DataFrame()] has no rows either. *)
Definition load_data_body : M (DataFrame datetime) :=
  ex <- path_exists ;;
  if ex then
    df <- read_csv ;;
    if (0 <? length df)%nat then lift (to_datetime_column df) else ret []
  else ret [].

(** [@st.cache_data(ttl=30)]: the entry is served while it is younger than
    the time to live; otherwise the body runs and its value is stored. *)
Definition TTL : Z := 30.

Definition cache_lookup (w : World) : option (DataFrame datetime) :=
  match cache w with
  | Some (created, v) => if (timer w <? created + TTL)%Z then Some v else None
  | None => None
  end.

Definition load_data : M (DataFrame datetime) :=
  fun w =>
    match cache_lookup w with
    | Some v => (Ok v, w)
    | None =>
      match load_data_body w with
      | (Ok v, w') => (Ok v, set_cache (Some (timer w', v)) w')
      | (Raise e, w') => (Raise e, w')
      end
    end.

(** [st.cache_data.clear()] *)
Definition cache_data_clear : M unit := fun w => (Ok tt, set_cache None w).

(** [df.empty] *)
Definition df_empty {T} (df : DataFrame T) : bool :=
  match df with [] => true | _ => false end.

(** The buttons of the page. *)
Inductive button : Type := Refresh | ClearAllData | ConfirmDelete.

Inductive date_choice : Type := AllTime | Today | Last7Days | Last30Days.

Inductive sort_choice : Type :=
  NewestFirst | OldestFirst | HighestRating | LowestRating.

Definition button_eqb (a b : button) : bool :=
  match a, b with
  | Refresh, Refresh | ClearAllData, ClearAllData
  | ConfirmDelete, ConfirmDelete => true
  | _, _ => false
  end.

(** The widget state of one run of the script: the button whose click
    started the run, if a click did, and the values of the three filter
    widgets. *)
Record controls : Type := mkControls {
  clicked : option button;
  rating_filter : list Z;
  date_filter : date_choice;
  sort_order : sort_choice
}.

(** [st.button(label)]: true only in the run started by a click on that
    button. *)
Definition st_button (b : button) (ui : controls) : bool :=
  match clicked ui with
  | Some c => button_eqb c b
  | None => false
  end.

(** [df['rating'].isin(rating_filter)] on one row. *)
Definition isin (l : list Z) (z : Z) : bool := existsb (Z.eqb z) l.

(** The date condition of lines 243 to 248 on one row. *)
Definition date_ok (now : datetime) (c : date_choice) (row : Row datetime) : bool :=
  match c with
  | AllTime => true
  | Today => same_date (timestamp row) now
  | Last7Days => ltb (minus_days now 7) (timestamp row)
  | Last30Days => ltb (minus_days now 30) (timestamp row)
  end.

(** [df.sort_values(...)], as an insertion sort on the order [le].  pandas
    does not promise an order among rows with equal keys, and the order this
    definition gives them is not a property of the code: the statements
    below speak of the sorted frame through its contents and its
    sortedness only. *)
Fixpoint insert_row (le : Row datetime -> Row datetime -> bool)
    (r : Row datetime) (l : DataFrame datetime) : DataFrame datetime :=
  match l with
  | [] => [r]
  | x :: l' => if le r x then r :: l else x :: insert_row le r l'
  end.

Fixpoint sort_values (le : Row datetime -> Row datetime -> bool)
    (l : DataFrame datetime) : DataFrame datetime :=
  match l with
  | [] => []
  | x :: l' => insert_row le x (sort_values le l')
  end.

Definition order (c : sort_choice) (a b : Row datetime) : bool :=
  match c with
  | NewestFirst => negb (ltb (timestamp a) (timestamp b))
  | OldestFirst => negb (ltb (timestamp b) (timestamp a))
  | HighestRating => (rating b <=? rating a)%Z
  | LowestRating => (rating a <=? rating b)%Z
  end.

(** Lines 240 to 258: the rating filter, the date filter, the sort. *)
Definition filtered_df (now : datetime) (ui : controls) (df : DataFrame datetime)
  : DataFrame datetime :=
  let by_rating := filter (fun row => isin (rating_filter ui) (rating row)) df in
  let by_date := filter (date_ok now (date_filter ui)) by_rating in
  sort_values (order (sort_order ui)) by_date.

(** [frame[frame['rating'] <= 2]] *)
Definition critical (frame : DataFrame datetime) : DataFrame datetime :=
  filter (fun row => (rating row <=? 2)%Z) frame.

Definition LABEL_CSV : pystr := lit "📥 Download CSV".
Definition LABEL_CRITICAL : pystr := lit "⚠️ Download Critical Reviews".
Definition MSG_NO_REVIEWS : pystr := lit "📭 No reviews yet. Waiting for submissions...".
Definition MSG_NO_MATCH : pystr := lit "No reviews match your filters.".
Definition MSG_UNDONE : pystr := lit "⚠️ This action cannot be undone!".
Definition MSG_CLEARED : pystr := lit "All data cleared!".

Definition get_rating_emoji (rating : Z) : pystr :=
  if (rating =? 1)%Z then lit "😞"
  else if (rating =? 2)%Z then lit "😕"
  else if (rating =? 3)%Z then lit "😐"
  else if (rating =? 4)%Z then lit "👍"
  else if (rating =? 5)%Z then lit "😊"
  else lit "⭐".

(** [row['ai_summary'][:50]] inside the f-string of line 282: a slice of a
    [str] (or of a list, which is then formatted); a number, a boolean or
    NaN cannot be subscripted. *)
Definition summary_head (c : pyobj) : res pystr :=
  match c with
  | PStr s => Ok (firstn 50 s)
  | PList l => Ok (py_repr (PList (firstn 50 l)))
  | _ => Raise TypeError
  end.

(** The label of a review's card, line 282. *)
Definition expander_label (row : Row datetime) : res pystr :=
  bind_res (summary_head (ai_summary row)) (fun head =>
  Ok (get_rating_emoji (rating row) ++ lit " " ++ str_int (rating row)
      ++ lit "⭐ - " ++ strftime_minutes (timestamp row) ++ lit " - "
      ++ head ++ lit "...")).

(** Lines 279 to 311: one card per row of the filtered frame.  What is
    rendered inside a card only shows the row's cells and is left out. *)
Fixpoint detail_cards (rows : DataFrame datetime) : M unit :=
  match rows with
  | [] => ret tt
  | row :: rest =>
    label <- lift (expander_label row) ;;
    render (st_expander label) ;;;
    detail_cards rest
  end.

(** Lines 276 to 311. *)
Definition detail_list (filtered : DataFrame datetime) : M unit :=
  if df_empty filtered then render (st_info MSG_NO_MATCH)
  else detail_cards filtered.

(** Lines 349 to 352: the statements under the [Confirm Delete] button. *)
Definition clear_all_data : M unit :=
  to_csv [] ;;;
  render (st_success MSG_CLEARED) ;;;
  cache_data_clear ;;;
  raise RerunException.

(** One pass over the script.  The metric and chart sections only render
    values computed from [df]; they are left out, and so is the static text
    of the page (title, headings, the getting-started help under the
    empty-store notice, the count of shown reviews, footer). *)
Definition script (ui : controls) : M unit :=
  initialize_csv ;;;
  (if st_button Refresh ui
   then cache_data_clear ;;; raise RerunException
   else ret tt) ;;;
  df <- load_data ;;
  if df_empty df then
    render (st_info MSG_NO_REVIEWS) ;;;
    raise StopException
  else
    now <- datetime_now ;;
    let filtered := filtered_df now ui df in
    detail_list filtered ;;;
    render (st_download_button LABEL_CSV filtered) ;;;
    render (st_download_button LABEL_CRITICAL (critical filtered)) ;;;
    if st_button ClearAllData ui then
      render (st_warning MSG_UNDONE) ;;;
      if st_button ConfirmDelete ui then clear_all_data else ret tt
    else ret tt.

(** One interaction: the page is rendered afresh; [st.rerun()] starts the
    script again with the same widget values and no button pressed.  An
    exception the script does not catch ends the pass, and Streamlit shows
    it at the end of what was rendered. *)
Definition no_click (ui : controls) : controls :=
  mkControls None (rating_filter ui) (date_filter ui) (sort_order ui).

(** How a pass ends. *)
Definition finish (r : res unit * World) : World :=
  match r with
  | (Raise e, w') =>
    if is_Exception e then set_page (page w' ++ [st_exception e]) w' else w'
  | (Ok _, w') => w'
  end.

Definition run (ui : controls) (w : World) : World :=
  match script ui (set_page [] w) with
  | (Raise RerunException, w') => finish (script (no_click ui) (set_page [] w'))
  | r => finish r
  end.

(** A session: the successive interactions of the admin with the page. *)
Definition session (uis : list controls) (w : World) : World :=
  fold_left (fun w ui => run ui w) uis w.

(** The Insights tab, lines 193 to 207: the panels list
    [critical_df.head(3)] and [positive_df.head(3)]. *)
Definition most_common_issues (df : DataFrame datetime) : DataFrame datetime :=
  firstn 3 (filter (fun row => (rating row <=? 2)%Z) df).

Definition recent_highlights (df : DataFrame datetime) : DataFrame datetime :=
  firstn 3 (filter (fun row => (rating row =? 5)%Z) df).

(** The counts of the Key Metrics panel, lines 96, 109 and 118. *)
Definition total_reviews (df : DataFrame datetime) : nat := length df.

Definition positive_reviews (df : DataFrame datetime) : nat :=
  length (filter (fun row => (4 <=? rating row)%Z) df).

Definition critical_reviews (df : DataFrame datetime) : nat :=
  length (filter (fun row => (rating row <=? 2)%Z) df).

(** The caption under the Critical Reviews count, line 122. *)
Definition critical_delta (df : DataFrame datetime) : pystr :=
  if (0 <? critical_reviews df)%nat then lit "Needs attention" else lit "All good".

End AdminDashboard.

(* ================================================================== *)
(** ** Vocabulary of the properties, and sample inputs *)

Import Json Time Pandas App.

(** What the [try] block of [generate_summary_and_actions] decodes the
    response to: the fence is stripped, the text trimmed and handed to
    [json.loads]. *)
Definition decoded (response_content : pystr) : res pyobj :=
  bind_res (UserDashboard.unfence response_content)
    (fun content => loads (strip content)).

(** The response is malformed: it does not decode to a JSON object. *)
Definition malformed (response_content : pystr) : Prop :=
  forall d, decoded response_content <> Ok (PDict d).

(** The value a decimal numeral denotes: an optional minus sign and at
    least one digit, read from the left. *)
Definition numeral_value (s : pystr) : option Z :=
  let (neg, ds) :=
    match s with
    | c :: s' => if (c =? 45)%N then (true, s') else (false, s)
    | [] => (false, s)
    end in
  match ds with
  | [] => None
  | _ :: _ =>
    if forallb is_digit ds
    then Some (if neg then (- int_of_digits ds)%Z else int_of_digits ds)
    else None
  end.

(** The code points of a numeral given by its decimal digits. *)
Fixpoint uint_codes (d : Decimal.uint) : pystr :=
  match d with
  | Decimal.Nil => []
  | Decimal.D0 d' => 48%N :: uint_codes d'
  | Decimal.D1 d' => 49%N :: uint_codes d'
  | Decimal.D2 d' => 50%N :: uint_codes d'
  | Decimal.D3 d' => 51%N :: uint_codes d'
  | Decimal.D4 d' => 52%N :: uint_codes d'
  | Decimal.D5 d' => 53%N :: uint_codes d'
  | Decimal.D6 d' => 54%N :: uint_codes d'
  | Decimal.D7 d' => 55%N :: uint_codes d'
  | Decimal.D8 d' => 56%N :: uint_codes d'
  | Decimal.D9 d' => 57%N :: uint_codes d'
  end.

(** A text the file keeps in one field: no carriage return, no NUL, and
    only Unicode scalar values (the file is written as UTF-8). *)
Definition storable_char (c : N) : bool :=
  (negb (c =? 0) && negb (c =? 13) && (c <=? 1114111)
   && negb ((55296 <=? c) && (c <=? 57343)))%N.

Definition writable (t : pystr) : bool := forallb storable_char t.


(** A text that comes back from the file as the same text: it is writable
    and is not a missing-value marker (so it is not empty), not a boolean
    word, not a spelling of infinity, and it holds a character that no
    numeral has. *)
Definition verbatim (t : pystr) : bool :=
  writable t
  && negb (is_na t)
  && negb (forallb numeral_char t)
  && negb (inf_word t)
  && match bool_word t with Some _ => false | None => true end.

(** A data line all of whose fields come back as written; the rating fits
    a 64-bit integer. *)
Definition verbatim_line (l : Line) : bool :=
  verbatim (line_timestamp l) && int64 (line_rating l)
  && verbatim (line_review l) && verbatim (line_ai_response l)
  && verbatim (line_ai_summary l) && verbatim (line_recommended_actions l).

(** The row whose cells are the texts of a data line. *)
Definition as_read (l : Line) : Row pystr :=
  mkRow (line_timestamp l) (line_rating l)
    (PStr (line_review l)) (PStr (line_ai_response l))
    (PStr (line_ai_summary l)) (PStr (line_recommended_actions l)).

(** What [save_review] leaves in a file that held the lines [S]: the frame
    read from them, with the new row, written back. *)
Definition appended (S : list Line) (row : Row pystr) : list Line :=
  map format_row (concat (parse_lines S) row).

(** What the body of [load_data] returns on a world: the frame read from
    the file with the timestamp column converted, no rows when the file is
    missing or holds no data line. *)
Definition read_frame (w : World) : res (DataFrame datetime) :=
  match data_file w with
  | Some ls =>
    if (0 <? length (parse_lines ls))%nat
    then AdminDashboard.to_datetime_column (parse_lines ls)
    else Ok []
  | None => Ok []
  end.

(** A cell that line 282 cannot slice. *)
Definition unsubscriptable (c : pyobj) : bool :=
  match c with
  | PStr _ | PList _ => false
  | _ => true
  end.

(** The cards of the detail list and how the loop over the rows ends. *)
Fixpoint cards (rows : DataFrame datetime) : list element * res unit :=
  match rows with
  | [] => ([], Ok tt)
  | row :: rest =>
    match AdminDashboard.expander_label row with
    | Ok label => (st_expander label :: fst (cards rest), snd (cards rest))
    | Raise e => ([], Raise e)
    end
  end.

(** What the detail list renders for a filtered frame. *)
Definition details (filtered : DataFrame datetime) : list element * res unit :=
  if AdminDashboard.df_empty filtered
  then ([st_info AdminDashboard.MSG_NO_MATCH], Ok tt)
  else cards filtered.

(** What one pass of the admin script renders from a loaded frame with
    rows, at the time [now], and how the pass ends. *)
Definition view (ui : AdminDashboard.controls) (now : datetime)
    (df : DataFrame datetime) : list element * res unit :=
  let filtered := AdminDashboard.filtered_df now ui df in
  match snd (details filtered) with
  | Raise e => (fst (details filtered), Raise e)
  | Ok _ =>
    (fst (details filtered)
     ++ [st_download_button AdminDashboard.LABEL_CSV filtered;
         st_download_button AdminDashboard.LABEL_CRITICAL
           (AdminDashboard.critical filtered)]
     ++ (if AdminDashboard.st_button AdminDashboard.ClearAllData ui
         then [st_warning AdminDashboard.MSG_UNDONE] else []),
     Ok tt)
  end.

Definition is_download (e : element) : bool :=
  match e with
  | st_download_button _ _ => true
  | _ => false
  end.

Module Samples.

Definition noon : datetime := mkDatetime 2024 3 1 12 0 0 250000.

(** A world with an empty store, no cache entry and a blank page, around a
    given model. *)
Definition world_with (model : nat -> pystr -> res pystr) : World :=
  mkWorld (Some []) noon model [] 100 None [].

(** A model that answers every prompt with the same text. *)
Definition always (answer : pystr) : nat -> pystr -> res pystr :=
  fun _ _ => Ok answer.

(** A response that is not JSON. *)
Definition prose : pystr := lit "The customer is unhappy with the service.".

(** A fenced JSON object with a [summary] field only. *)
Definition summary_only : pystr :=
  lit "```json
{" ++ DQ ++ lit "summary" ++ DQ ++ lit ": " ++ DQ ++ lit "Slow delivery" ++ DQ
  ++ lit "}
```".


(** A one-star record, as the file holds it and as loaded. *)
Definition terrible_stored : Line :=
  mkLine (lit "2024-03-01 09:30:00") 1 (lit "Terrible") (lit "We are sorry.")
    (lit "Unhappy customer") (lit "Call the customer").

Definition terrible_loaded : Row datetime :=
  mkRow (mkDatetime 2024 3 1 9 30 0 0) 1
    (PStr (lit "Terrible")) (PStr (lit "We are sorry."))
    (PStr (lit "Unhappy customer")) (PStr (lit "Call the customer")).

(** A store holding that record, not yet loaded by the admin page; the
    model answers with prose. *)
Definition one_critical : World :=
  mkWorld (Some [terrible_stored]) noon (always (lit " Thank you! ")) [] 100 None [].



(** A one-star record for which the model's JSON had [null] as summary:
    [to_csv] wrote an empty field. *)
Definition unsummarised_stored : Line :=
  mkLine (lit "2024-03-01 09:30:00") 1 (lit "Terrible") (lit "We are sorry.")
    [] (lit "Call the customer").

Definition one_unsummarised : World :=
  mkWorld (Some [unsummarised_stored]) noon (always (lit "Thanks")) [] 100 None [].

(** Widget states of the admin page: the defaults, only the ratings 3 to 5
    selected, and a click on one of the buttons. *)
Definition defaults : AdminDashboard.controls :=
  AdminDashboard.mkControls None [1; 2; 3; 4; 5]%Z
    AdminDashboard.AllTime AdminDashboard.NewestFirst.


Definition click (b : AdminDashboard.button) : AdminDashboard.controls :=
  AdminDashboard.mkControls (Some b) [1; 2; 3; 4; 5]%Z
    AdminDashboard.AllTime AdminDashboard.NewestFirst.


End Samples.

(** The text has no whitespace at either end. *)
Definition trimmed (s : pystr) : Prop :=
  match s with [] => True | c :: _ => isspace c = false end
  /\ match rev s with [] => True | c :: _ => isspace c = false end.

(** A text that can stand between the quotes of a JSON string as it is:
    no control character, no quote, no backslash. *)
Definition plain (s : pystr) : Prop :=
  Forall (fun c => (32 <= c)%N /\ c <> 34%N /\ c <> 92%N) s.

(** The JSON object in the exact format the analysis prompt shows, around
    a summary and an action text: the three fixed parts, as code points, and
    the whole. *)
Definition ANSWER_OPEN : pystr :=
  Eval vm_compute in
    (lit "{
    " ++ DQ ++ lit "summary" ++ DQ ++ lit ": " ++ DQ).

Definition ANSWER_MIDDLE : pystr :=
  Eval vm_compute in
    (DQ ++ lit ",
    " ++ DQ ++ lit "recommended_actions" ++ DQ ++ lit ": " ++ DQ).

Definition ANSWER_CLOSE : pystr :=
  Eval vm_compute in
    (DQ ++ lit "
}").

Definition answer_text (summary actions : pystr) : pystr :=
  ANSWER_OPEN ++ summary ++ ANSWER_MIDDLE ++ actions ++ ANSWER_CLOSE.

(** The text holds no backtick. *)
Definition no_backtick (s : pystr) : Prop := Forall (fun c => c <> 96%N) s.






(* ================================================================== *)
(** ** The analyzer: decoding with fallback *)

Section Analyzer.

Import UserDashboard.

Lemma parse_response_decoded (c : pystr) :
  parse_response c =
  bind_res (decoded c) (fun data =>
  bind_res (get data (lit "summary") (PStr (lit "Summary not available")))
    (fun summary =>
  bind_res (get data (lit "recommended_actions")
              (PStr (lit "Actions not available"))) (fun actions =>
  Ok (summary, actions)))).
Proof.
  unfold parse_response, decoded. destruct (unfence c); reflexivity.
Qed.

Lemma get_dict_ok (d : list (pystr * pyobj)) (k : pystr) (dflt : pyobj) :
  get (PDict d) k dflt =
  Ok (match dict_lookup d k with Some v => v | None => dflt end).
Proof. unfold get. destruct (dict_lookup d k); reflexivity. Qed.

Lemma malformed_raises (c : pystr) :
  malformed c -> exists e, parse_response c = Raise e.
Proof.
  intros Hm. rewrite parse_response_decoded. unfold malformed in Hm.
  destruct (decoded c) as [data | e]; [ | exists e; reflexivity ].
  destruct data; simpl; try (eexists; reflexivity).
  exfalso. apply (Hm d). reflexivity.
Qed.

Lemma invoke_result (prompt : pystr) (w : World) :
  invoke prompt w =
  (endpoint w (length (sent w)) prompt, set_sent (sent w ++ [prompt]) w).
Proof. reflexivity. Qed.

Lemma generate_summary_and_actions_result (r : Z) (review : pystr) (w : World) :
  fst (generate_summary_and_actions r review w) =
  match endpoint w (length (sent w)) (analysis_prompt r review) with
  | Ok content => Ok (summary_and_actions_of r content)
  | Raise e => Raise e
  end.
Proof.
  unfold generate_summary_and_actions, bind. rewrite invoke_result.
  destruct (endpoint w (length (sent w)) (analysis_prompt r review)); reflexivity.
Qed.

End Analyzer.


Section Numerals.

Lemma lit_uint (d : Decimal.uint) :
  lit (NilEmpty.string_of_uint d) = uint_codes d.
Proof.
  induction d; cbn [NilEmpty.string_of_uint uint_codes]; try reflexivity;
    unfold lit in *; cbn [list_ascii_of_string map utf8_decode N_of_ascii N_of_digits];
    cbn; rewrite IHd; reflexivity.
Qed.

Lemma horner_acc (d : Decimal.uint) (acc : positive) :
  fold_left (fun a c => (a * 10 + Z.of_N (c - 48))%Z) (uint_codes d) (Z.pos acc)
  = Z.pos (Pos.of_uint_acc d acc).
Proof.
  revert acc.
  induction d; intros acc; cbn [uint_codes fold_left Pos.of_uint_acc];
    try reflexivity; rewrite <- IHd; f_equal; lia.
Qed.

Lemma horner_uint (d : Decimal.uint) :
  int_of_digits (uint_codes d) = Z.of_uint d.
Proof.
  unfold int_of_digits, Z.of_uint.
  induction d; cbn [uint_codes fold_left Pos.of_uint];
    try reflexivity; try exact IHd;
    try (change (0 * 10 + Z.of_N (49 - 48))%Z with (Z.pos 1);
         change (0 * 10 + Z.of_N (50 - 48))%Z with (Z.pos 2);
         change (0 * 10 + Z.of_N (51 - 48))%Z with (Z.pos 3);
         change (0 * 10 + Z.of_N (52 - 48))%Z with (Z.pos 4);
         change (0 * 10 + Z.of_N (53 - 48))%Z with (Z.pos 5);
         change (0 * 10 + Z.of_N (54 - 48))%Z with (Z.pos 6);
         change (0 * 10 + Z.of_N (55 - 48))%Z with (Z.pos 7);
         change (0 * 10 + Z.of_N (56 - 48))%Z with (Z.pos 8);
         change (0 * 10 + Z.of_N (57 - 48))%Z with (Z.pos 9);
         apply horner_acc).
Qed.

Lemma uint_codes_digits (d : Decimal.uint) :
  forallb is_digit (uint_codes d) = true.
Proof. induction d; cbn [uint_codes forallb]; try reflexivity; exact IHd. Qed.

Lemma numeral_value_codes (d : Decimal.uint) :
  d <> Decimal.Nil ->
  numeral_value (uint_codes d) = Some (Z.of_uint d)
  /\ numeral_value (45%N :: uint_codes d) = Some (- Z.of_uint d)%Z.
Proof.
  intros Hd. pose proof (uint_codes_digits d) as Hdig.
  pose proof (horner_uint d) as Hval.
  unfold numeral_value.
  destruct d; try congruence; cbn [uint_codes] in *;
    cbn [N.eqb Pos.eqb]; rewrite Hdig, Hval; split; reflexivity.
Qed.

(** [str(r)] is a decimal numeral of value [r]. *)
Lemma numeral_value_str_int (r : Z) : numeral_value (str_int r) = Some r.
Proof.
  destruct r as [ | p | p].
  - reflexivity.
  - unfold str_int. cbn [Z.to_int NilZero.string_of_int].
    pose proof (Unsigned.to_uint_nonnil p) as Hn.
    assert (Hs : NilZero.string_of_uint (Pos.to_uint p)
                 = NilEmpty.string_of_uint (Pos.to_uint p)).
    { unfold NilZero.string_of_uint. destruct (Pos.to_uint p); congruence. }
    rewrite Hs, lit_uint.
    rewrite (proj1 (@numeral_value_codes _ Hn)).
    unfold Z.of_uint. rewrite DecimalPos.Unsigned.of_to. reflexivity.
  - unfold str_int. cbn [Z.to_int NilZero.string_of_int].
    pose proof (Unsigned.to_uint_nonnil p) as Hn.
    assert (Hs : NilZero.string_of_uint (Pos.to_uint p)
                 = NilEmpty.string_of_uint (Pos.to_uint p)).
    { unfold NilZero.string_of_uint. destruct (Pos.to_uint p); congruence. }
    rewrite Hs.
    assert (Hl : forall s, lit (String "-" s) = 45%N :: lit s) by reflexivity.
    rewrite Hl, lit_uint.
    rewrite (proj2 (@numeral_value_codes _ Hn)).
    unfold Z.of_uint. rewrite DecimalPos.Unsigned.of_to. reflexivity.
Qed.

(** The numeral of a one-digit number is its digit. *)
Lemma str_int_digit (r : Z) :
  (0 <= r <= 9)%Z -> str_int r = [Z.to_N (48 + r)].
Proof.
  intros H.
  assert (Hc : (r = 0 \/ r = 1 \/ r = 2 \/ r = 3 \/ r = 4 \/ r = 5 \/ r = 6
                \/ r = 7 \/ r = 8 \/ r = 9)%Z) by lia.
  repeat (destruct Hc as [-> | Hc]; [reflexivity | ]). subst r. reflexivity.
Qed.

End Numerals.

(** C3. For every rating, when the model answers the analyze call with a
    response that does not decode to a JSON object (the decoder raises, or
    yields a list, string, number or constant), [generate_summary_and_actions]
    does not raise and returns exactly the pair made of the rating's decimal
    numeral followed by [-star review requiring attention], and
    [Review manually and respond appropriately].  The numeral denotes the
    rating; for a rating of one digit, as the form's slider gives, it is
    that digit. *)
Theorem malformed_response_gives_fallback :
  forall (r : Z) (review content : pystr) (w : World),
    endpoint w (length (sent w)) (UserDashboard.analysis_prompt r review)
      = Ok content ->
    malformed content ->
    exists numeral,
      fst (UserDashboard.generate_summary_and_actions r review w) =
      Ok (PStr (numeral ++ lit "-star review requiring attention"),
          PStr (lit "Review manually and respond appropriately"))
      /\ numeral_value numeral = Some r
      /\ ((0 <= r <= 9)%Z -> numeral = [Z.to_N (48 + r)]).
Proof.
  intros r review content w Hcall Hm. exists (str_int r).
  split; [ | split; [apply numeral_value_str_int | apply str_int_digit]].
  rewrite generate_summary_and_actions_result, Hcall.
  destruct (malformed_raises Hm) as [e He].
  unfold UserDashboard.summary_and_actions_of. rewrite He. reflexivity.
Qed.

Lemma malformed_response_witness :
  let r := 2%Z in
  let review := lit "Terrible" in
  let w := Samples.world_with (Samples.always Samples.prose) in
  (endpoint w (length (sent w)) (UserDashboard.analysis_prompt r review)
     = Ok Samples.prose
   /\ malformed Samples.prose)
  /\ fst (UserDashboard.generate_summary_and_actions r review w) =
     Ok (PStr (lit "2-star review requiring attention"),
         PStr (lit "Review manually and respond appropriately")).
Proof.
  intros r review w.
  assert (Hcall : endpoint w (length (sent w))
                    (UserDashboard.analysis_prompt r review) = Ok Samples.prose)
    by reflexivity.
  assert (H : malformed Samples.prose).
  { intros d Hd. vm_compute in Hd. discriminate Hd. }
  split; [split; [exact Hcall | exact H] | ].
  destruct (@malformed_response_gives_fallback r review Samples.prose w Hcall H)
    as (numeral & Hpair & _ & Hdigit).
  rewrite Hpair, Hdigit by (unfold r; lia). vm_compute. reflexivity.
Defined.

(** C4 (as amended). When the response decodes to a JSON object, the
    analyzer does not fail; a missing [summary] field is replaced by
    [Summary not available] and a missing [recommended_actions] field by
    [Actions not available], and a field that is present is returned as
    decoded. *)
Theorem missing_fields_take_defaults :
  forall (r : Z) (content : pystr) (d : list (pystr * pyobj)),
    decoded content = Ok (PDict d) ->
    UserDashboard.summary_and_actions_of r content =
    (match dict_lookup d (lit "summary") with
     | Some v => v
     | None => PStr (lit "Summary not available")
     end,
     match dict_lookup d (lit "recommended_actions") with
     | Some v => v
     | None => PStr (lit "Actions not available")
     end).
Proof.
  intros r content d Hd.
  unfold UserDashboard.summary_and_actions_of.
  rewrite parse_response_decoded, Hd. unfold bind_res.
  rewrite !get_dict_ok. reflexivity.
Qed.

(** C10. Once the model call of [generate_summary_and_actions] has returned
    a response, the function returns a pair: whatever the statements of the
    [try] block raise is caught and mapped to the fallback pair.  The
    function raises exactly when the model call raises, with that
    exception. *)
Theorem analyze_raises_only_with_the_model :
  forall (r : Z) (review : pystr) (w : World),
    match endpoint w (length (sent w)) (UserDashboard.analysis_prompt r review) with
    | Ok content =>
      exists p,
        fst (UserDashboard.generate_summary_and_actions r review w) = Ok p
        /\ (forall e, UserDashboard.parse_response content = Raise e ->
            p = (PStr (str_int r ++ lit "-star review requiring attention"),
                 PStr (lit "Review manually and respond appropriately")))
        /\ (forall q, UserDashboard.parse_response content = Ok q -> p = q)
    | Raise e =>
      fst (UserDashboard.generate_summary_and_actions r review w) = Raise e
    end.
Proof.
  intros r review w. rewrite generate_summary_and_actions_result.
  destruct (endpoint w (length (sent w)) (UserDashboard.analysis_prompt r review))
    as [content | e]; [ | reflexivity ].
  exists (UserDashboard.summary_and_actions_of r content).
  split; [reflexivity | ].
  unfold UserDashboard.summary_and_actions_of.
  split; intros x Hx; rewrite Hx; reflexivity.
Qed.

(** C4, as stated, fails: on an object without [recommended_actions] the
    analyzer returns [Actions not available], which is not the fallback
    string. *)
Lemma missing_actions_not_fallback :
  exists d,
    decoded Samples.summary_only = Ok (PDict d)
    /\ dict_lookup d (lit "recommended_actions") = None
    /\ UserDashboard.summary_and_actions_of 2 Samples.summary_only
       = (PStr (lit "Slow delivery"), PStr (lit "Actions not available"))
    /\ snd (UserDashboard.summary_and_actions_of 2 Samples.summary_only)
       <> PStr (lit "Review manually and respond appropriately").
Proof.
  exists [(lit "summary", PStr (lit "Slow delivery"))].
  repeat split; try (vm_compute; reflexivity).
  vm_compute. discriminate.
Qed.

Lemma missing_fields_witness :
  decoded Samples.summary_only
    = Ok (PDict [(lit "summary", PStr (lit "Slow delivery"))])
  /\ UserDashboard.summary_and_actions_of 2 Samples.summary_only
     = (PStr (lit "Slow delivery"), PStr (lit "Actions not available")).
Proof.
  assert (H : decoded Samples.summary_only
              = Ok (PDict [(lit "summary", PStr (lit "Slow delivery"))]))
    by (vm_compute; reflexivity).
  split; [exact H | ].
  exact (missing_fields_take_defaults 2 Samples.summary_only H).
Defined.

(* ================================================================== *)
(** ** The store and the submission pipeline *)

(** Projections of an updated world. *)
Ltac world_simpl :=
  cbn [page data_file sent clock endpoint timer cache
       set_page set_data_file set_sent set_cache snd fst].

Section Codec.

Lemma verbatim_not_na (t : pystr) : verbatim t = true -> is_na t = false.
Proof.
  unfold verbatim. intros H.
  destruct (is_na t); [ | reflexivity].
  rewrite andb_false_r in H. discriminate H.
Qed.

(** A verbatim field is read as text. *)
Lemma verbatim_text (t : pystr) : verbatim t = true -> classify t = KText.
Proof.
  intros H. unfold classify. rewrite (verbatim_not_na t H).
  unfold verbatim in H.
  destruct (forallb numeral_char t);
    [rewrite andb_false_r in H; discriminate H | ].
  destruct (inf_word t); [rewrite andb_false_r in H; discriminate H | ].
  destruct (bool_word t); [rewrite andb_false_r in H; discriminate H | ].
  reflexivity.
Qed.

(** A column of verbatim fields is a column of strings. *)
Lemma infer_verbatim (col : list pystr) :
  forallb verbatim col = true -> infer col = map PStr col.
Proof.
  intros H. destruct col as [ | t col]; [reflexivity | ].
  unfold infer. cbn [map forallb].
  assert (Ht : verbatim t = true).
  { cbn [forallb] in H. apply andb_true_iff in H. exact (proj1 H). }
  rewrite (verbatim_text t Ht). cbn [is_int is_number_or_na is_bool_or_na andb].
  change (object_cell t :: map object_cell col) with (map object_cell (t :: col)).
  change (PStr t :: map PStr col) with (map PStr (t :: col)).
  apply map_ext_in. intros x Hx. unfold object_cell.
  rewrite forallb_forall in H. rewrite (verbatim_not_na x (H x Hx)). reflexivity.
Qed.

Lemma build_as_read (ls : list Line) :
  build ls (map PStr (map line_review ls)) (map PStr (map line_ai_response ls))
    (map PStr (map line_ai_summary ls))
    (map PStr (map line_recommended_actions ls))
  = map as_read ls.
Proof.
  induction ls as [ | l ls IH]; cbn [map build]; [reflexivity | ].
  rewrite IH. reflexivity.
Qed.

Lemma verbatim_columns (S : list Line) :
  forallb verbatim_line S = true ->
  forallb verbatim (map line_review S) = true
  /\ forallb verbatim (map line_ai_response S) = true
  /\ forallb verbatim (map line_ai_summary S) = true
  /\ forallb verbatim (map line_recommended_actions S) = true.
Proof.
  induction S as [ | l S IH]; cbn [forallb map]; [repeat split | ].
  intros H. apply andb_true_iff in H. destruct H as [Hl HS].
  destruct (IH HS) as (H1 & H2 & H3 & H4). rewrite H1, H2, H3, H4.
  unfold verbatim_line in Hl.
  repeat (apply andb_true_iff in Hl; destruct Hl as [Hl ?]).
  repeat split; apply andb_true_iff; split; (assumption || reflexivity).
Qed.

(** Reading a file of verbatim lines gives their texts. *)
Lemma parse_lines_verbatim (S : list Line) :
  forallb verbatim_line S = true -> parse_lines S = map as_read S.
Proof.
  intros H. destruct (verbatim_columns S H) as (H1 & H2 & H3 & H4).
  unfold parse_lines.
  rewrite (infer_verbatim _ H1), (infer_verbatim _ H2),
          (infer_verbatim _ H3), (infer_verbatim _ H4).
  apply build_as_read.
Qed.

Lemma format_as_read (l : Line) : format_row (as_read l) = l.
Proof. destruct l. reflexivity. Qed.

Lemma promote_none {T} (row : Row T) : promote false false false false row = row.
Proof. destruct row. reflexivity. Qed.

Lemma promotes_text (cells : list pyobj) (s : pystr) (new : pyobj) :
  promotes (PStr s :: cells) new = false.
Proof.
  unfold promotes. cbn [forallb is_number andb]. rewrite andb_false_r. reflexivity.
Qed.

(** Text columns are joined as they are. *)
Lemma concat_as_read (S : list Line) (row : Row pystr) :
  concat (map as_read S) row = map as_read S ++ [row].
Proof.
  unfold concat. destruct S as [ | l S].
  - cbn [map promotes app]. rewrite promote_none. reflexivity.
  - cbn [map as_read review ai_response ai_summary recommended_actions].
    rewrite !promotes_text.
    rewrite (map_ext _ (fun x => x) (@promote_none pystr)), map_id. reflexivity.
Qed.

(** Appending to a file of verbatim lines keeps them and adds one line. *)
Lemma appended_verbatim (S : list Line) (row : Row pystr) :
  forallb verbatim_line S = true -> appended S row = S ++ [format_row row].
Proof.
  intros H. unfold appended.
  rewrite (parse_lines_verbatim S H), concat_as_read, map_app, map_map.
  rewrite (map_ext _ (fun x => x) format_as_read), map_id. reflexivity.
Qed.


Lemma build_snoc (S : list Line) (l : Line) (c1 c2 c3 c4 : list pyobj)
    (x1 x2 x3 x4 : pyobj) :
  length c1 = length S -> length c2 = length S ->
  length c3 = length S -> length c4 = length S ->
  build (S ++ [l]) (c1 ++ [x1]) (c2 ++ [x2]) (c3 ++ [x3]) (c4 ++ [x4])
  = build S c1 c2 c3 c4
    ++ [mkRow (line_timestamp l) (line_rating l) x1 x2 x3 x4].
Proof.
  revert c1 c2 c3 c4.
  induction S as [ | l0 S IH]; intros [ | y1 c1] [ | y2 c2] [ | y3 c3] [ | y4 c4];
    cbn [length]; try discriminate; intros H1 H2 H3 H4.
  - reflexivity.
  - cbn [app build]. rewrite IH by congruence. reflexivity.
Qed.

(** An empty field at the end of a column of verbatim fields is read as a
    missing value, and the other fields stay texts. *)
Lemma infer_snoc_empty (col : list pystr) :
  forallb verbatim col = true -> infer (col ++ [[]]) = map PStr col ++ [NaN].
Proof.
  intros H. destruct col as [ | t col]; [reflexivity | ].
  unfold infer. cbn [app map forallb].
  assert (Ht : verbatim t = true).
  { cbn [forallb] in H. apply andb_true_iff in H. exact (proj1 H). }
  rewrite (verbatim_text t Ht). cbn [is_int is_number_or_na is_bool_or_na andb].
  change (object_cell t :: map object_cell (col ++ [[]]))
    with (map object_cell ((t :: col) ++ [[]])).
  rewrite map_app.
  change (PStr t :: map PStr col ++ [NaN]) with (map PStr (t :: col) ++ [NaN]).
  f_equal.
  apply map_ext_in. intros x Hx. unfold object_cell.
  rewrite forallb_forall in H. rewrite (verbatim_not_na x (H x Hx)). reflexivity.
Qed.

(** The frame read from a file of verbatim lines followed by the line of
    a new record whose summary was written as an empty field. *)
Lemma parse_lines_snoc_missing (S : list Line) (now : datetime) (r : Z)
    (t a c : pystr) (s : pyobj) :
  forallb verbatim_line S = true ->
  verbatim t = true -> verbatim a = true -> verbatim c = true ->
  cell_text s = [] ->
  parse_lines (S ++ [format_row (UserDashboard.new_row now r t a s (PStr c))])
  = map as_read S ++ [mkRow (strftime now) r (PStr t) (PStr a) NaN (PStr c)].
Proof.
  intros HS Ht Ha Hc Hs.
  destruct (verbatim_columns S HS) as (H1 & H3 & H4 & H5).
  unfold parse_lines. rewrite !map_app.
  cbn [map format_row UserDashboard.new_row line_review line_ai_response
       line_ai_summary line_recommended_actions
       timestamp rating review ai_response ai_summary recommended_actions].
  rewrite Hs.
  change (cell_text (PStr t)) with t. change (cell_text (PStr a)) with a.
  change (cell_text (PStr c)) with c.
  change (@cons pystr (@nil N) (@nil pystr))
    with (@cons (list N) (@nil N) (@nil (list N))).
  rewrite (infer_snoc_empty _ H4).
  rewrite !infer_verbatim.
  - rewrite !map_app. cbn [map].
    rewrite build_snoc by (rewrite !length_map; reflexivity).
    rewrite build_as_read. reflexivity.
  - rewrite forallb_app, H5. cbn. rewrite Hc. reflexivity.
  - rewrite forallb_app, H3. cbn. rewrite Ha. reflexivity.
  - rewrite forallb_app, H1. cbn. rewrite Ht. reflexivity.
Qed.

End Codec.

Section Pipeline.

Import UserDashboard.

Lemma initialize_csv_result (w : World) :
  initialize_csv w =
  (Ok tt, match data_file w with
          | Some _ => w
          | None => set_data_file (Some []) w
          end).
Proof.
  unfold initialize_csv, bind, path_exists, to_csv, ret.
  destruct (data_file w); reflexivity.
Qed.

Lemma save_review_result (r : Z) (t a : pystr) (s c : pyobj) (w : World) :
  save_review r t a s c w =
  match data_file w with
  | Some ls =>
    (Ok tt, set_data_file (Some (appended ls (new_row (clock w) r t a s c))) w)
  | None => (Raise FileNotFoundError, w)
  end.
Proof.
  unfold save_review, bind, datetime_now, read_csv, to_csv, appended.
  destruct (data_file w); reflexivity.
Qed.

End Pipeline.




(** C5. For every rating and every review text whose trimmed form is empty,
    the submission is refused with the validation message: the page shows
    that error, no prompt is sent to the model, and the store holds the
    records it held. *)
Theorem blank_review_is_refused :
  forall (r : Z) (t : pystr) (w : World),
    strip t = [] ->
    let w' := snd (UserDashboard.script (UserDashboard.mkForm r t true) w) in
    page w' = page w ++ [st_error (lit "⚠️ Please write a review before submitting.")]
    /\ sent w' = sent w
    /\ records w' = records w.
Proof.
  intros r t w Ht w'. subst w'.
  unfold UserDashboard.script, bind. rewrite initialize_csv_result.
  cbn [UserDashboard.submitted UserDashboard.form_rating UserDashboard.review_text].
  unfold UserDashboard.on_submit. rewrite Ht. cbn [falsy].
  unfold render, records.
  destruct (data_file w) eqn:E; cbn; rewrite ?E; repeat split; reflexivity.
Qed.

Lemma blank_review_witness :
  let w := Samples.world_with (Samples.always (lit "Thanks")) in
  let w' := snd (UserDashboard.script
                   (UserDashboard.mkForm 3 (lit "   ") true) w) in
  strip (lit "   ") = []
  /\ page w' = [st_error (lit "⚠️ Please write a review before submitting.")]
  /\ sent w' = []
  /\ records w' = [].
Proof.
  split; [reflexivity | ].
  exact (@blank_review_is_refused 3 (lit "   ")
           (Samples.world_with (Samples.always (lit "Thanks"))) eq_refl).
Defined.

Section Submission.

Import UserDashboard.

Lemma generate_ai_response_result (r : Z) (t : pystr) (w : World) :
  generate_ai_response r t w =
  (match endpoint w (length (sent w)) (response_prompt r t) with
   | Ok c => Ok (strip c)
   | Raise e => Raise e
   end, set_sent (sent w ++ [response_prompt r t]) w).
Proof.
  unfold generate_ai_response, bind. rewrite invoke_result.
  destruct (endpoint w (length (sent w)) (response_prompt r t)); reflexivity.
Qed.

Lemma generate_summary_and_actions_run (r : Z) (t : pystr) (w : World) :
  generate_summary_and_actions r t w =
  (match endpoint w (length (sent w)) (analysis_prompt r t) with
   | Ok c => Ok (summary_and_actions_of r c)
   | Raise e => Raise e
   end, set_sent (sent w ++ [analysis_prompt r t]) w).
Proof.
  unfold generate_summary_and_actions, bind. rewrite invoke_result.
  destruct (endpoint w (length (sent w)) (analysis_prompt r t)); reflexivity.
Qed.

(** A run with the form submitted is the handler, run once the data file
    exists. *)
Lemma script_submitted (r : Z) (t : pystr) (w : World) :
  script (mkForm r t true) w =
  on_submit r t (match data_file w with
                 | Some _ => w
                 | None => set_data_file (Some []) w
                 end).
Proof.
  unfold script, bind. rewrite initialize_csv_result. reflexivity.
Qed.



End Submission.




(* ================================================================== *)
(** ** Reading the store back *)

Section Timestamps.

Local Open Scope Z_scope.

Lemma digit_val_digit (n : Z) :
  0 <= n -> digit_val (digit n) = Some (n mod 10).
Proof.
  intros Hn. unfold digit_val, digit, Json.is_digit.
  assert (Hm : 0 <= n mod 10 < 10) by (apply Z.mod_pos_bound; lia).
  assert (Hlo : (48 <=? 48 + Z.to_N (n mod 10))%N = true) by (apply N.leb_le; lia).
  assert (Hhi : (48 + Z.to_N (n mod 10) <=? 57)%N = true) by (apply N.leb_le; lia).
  rewrite Hlo, Hhi. cbn [andb]. f_equal. lia.
Qed.

Lemma num2_pad (n : Z) :
  0 <= n < 100 -> num2 (digit (n / 10)) (digit n) = Some n.
Proof.
  intros Hn. unfold num2.
  rewrite !digit_val_digit by (Z.to_euclidean_division_equations; lia).
  f_equal. Z.to_euclidean_division_equations; lia.
Qed.

Lemma num4_pad (n : Z) :
  0 <= n < 10000 ->
  num4 (digit (n / 1000)) (digit (n / 100)) (digit (n / 10)) (digit n) = Some n.
Proof.
  intros Hn. unfold num4, num2.
  rewrite !digit_val_digit by (Z.to_euclidean_division_equations; lia).
  f_equal. Z.to_euclidean_division_equations; lia.
Qed.

(** Reading back a formatted timestamp gives the time at second precision. *)
Lemma to_datetime_strftime (d : datetime) :
  Time.valid d ->
  1678 <= year d <= 2261 ->
  to_datetime (strftime d) =
  Ok (mkDatetime (year d) (month d) (day d) (hour d) (minute d) (second d) 0).
Proof.
  intros (Hy & Hm & Hd & Hh & Hmi & Hs & _) Hyear.
  assert (Hdm : days_in_month (year d) (month d) <= 31).
  { unfold days_in_month.
    destruct (month d =? 2); [destruct (is_leap (year d)); lia | ].
    destruct ((month d =? 4) || (month d =? 6) || (month d =? 9) || (month d =? 11))%bool;
      lia. }
  unfold strftime, pad4, pad2. cbn [app]. unfold to_datetime.
  cbn [N.eqb Pos.eqb andb].
  rewrite num4_pad by lia. rewrite !num2_pad by lia.
  unfold in_range. cbn [year month day hour minute second].
  repeat match goal with
         | |- context [ (?a <=? ?b) ] =>
           replace (a <=? b) with true by (symmetry; apply Z.leb_le; lia)
         | |- context [ (?a <? ?b) ] =>
           replace (a <? b) with true by (symmetry; apply Z.ltb_lt; lia)
         end.
  reflexivity.
Qed.

End Timestamps.


Section Loading.

Import AdminDashboard.

Lemma to_datetime_column_app (S : DataFrame pystr) (L : DataFrame datetime)
    (X : Row pystr) (X' : Row datetime) :
  to_datetime_column S = Ok L ->
  convert_row X = Ok X' ->
  to_datetime_column (S ++ [X]) = Ok (L ++ [X']).
Proof.
  intros HS HX. revert L HS.
  induction S as [ | row S IH]; intros L HS; cbn [app to_datetime_column] in *.
  - injection HS as <-. rewrite HX. reflexivity.
  - destruct (convert_row row) as [r | e] eqn:Hr; [ | discriminate HS].
    destruct (to_datetime_column S) as [rs | e] eqn:Hrs; [ | discriminate HS].
    injection HS as <-. rewrite (IH rs eq_refl). reflexivity.
Qed.

Lemma load_data_body_result (w : World) :
  load_data_body w = (read_frame w, w).
Proof.
  unfold load_data_body, read_frame, bind, path_exists, read_csv, lift, ret.
  destruct (data_file w) as [ls | ] eqn:E; cbv beta iota; rewrite ?E;
    [ | reflexivity].
  destruct (0 <? length (parse_lines ls))%nat; reflexivity.
Qed.

(** [load_data]: the cached frame while it is fresh, the file otherwise. *)
Lemma load_data_result (w : World) :
  load_data w =
  match cache_lookup w with
  | Some v => (Ok v, w)
  | None =>
    match read_frame w with
    | Ok v => (Ok v, set_cache (Some (timer w, v)) w)
    | Raise e => (Raise e, w)
    end
  end.
Proof.
  unfold load_data. rewrite load_data_body_result. reflexivity.
Qed.

(** [load_data] when the cache serves nothing: the file is read. *)
Lemma load_data_miss (w : World) :
  cache_lookup w = None -> fst (load_data w) = read_frame w.
Proof.
  intros Hc. rewrite load_data_result, Hc.
  destruct (read_frame w); reflexivity.
Qed.


End Loading.



(** When the file is read, a text that is a missing-value marker does not
    come back either: a record saved with the action text [None] is loaded
    with a missing value in its place. *)
Lemma marker_is_loaded_as_missing :
  let w := Samples.one_critical in
  let w2 := snd (UserDashboard.save_review 5 (lit "Loved it") (lit "Thank you!")
                   (PStr (lit "Happy customer")) (PStr (lit "None")) w) in
  map line_recommended_actions (records w2) = [lit "Call the customer"; lit "None"]
  /\ AdminDashboard.cache_lookup w2 = None
  /\ exists L,
       fst (AdminDashboard.load_data w2) = Ok L
       /\ map (@recommended_actions datetime) L
          = [PStr (lit "Call the customer"); NaN].
Proof.
  cbv zeta. split; [vm_compute; reflexivity | ]. split; [reflexivity | ].
  eexists. split; [vm_compute; reflexivity | ]. vm_compute. reflexivity.
Qed.


(** C7. Whatever the store and the cache hold, after the clear operation
    the store has no records and [load_data] returns an empty frame. *)
Theorem clear_then_load_is_empty :
  forall w : World,
    let w' := snd (AdminDashboard.clear_all_data w) in
    records w' = []
    /\ fst (AdminDashboard.load_data w') = Ok [].
Proof.
  intros w w'. subst w'.
  unfold AdminDashboard.clear_all_data, bind, to_csv, render,
    AdminDashboard.cache_data_clear, raise.
  cbn [snd]. split; [reflexivity | ].
  rewrite load_data_miss; reflexivity.
Qed.

(* ================================================================== *)
(** ** The admin page: detail list, exports and the clear-all control *)

Section Exports.

Import AdminDashboard.

Lemma insert_row_perm (le : Row datetime -> Row datetime -> bool)
    (r : Row datetime) (l : DataFrame datetime) :
  Permutation (insert_row le r l) (r :: l).
Proof.
  induction l as [ | x l IH]; cbn [insert_row].
  - apply Permutation_refl.
  - destruct (le r x).
    + apply Permutation_refl.
    + apply perm_trans with (x :: r :: l).
      * apply perm_skip. exact IH.
      * apply perm_swap.
Qed.

Lemma sort_values_perm (le : Row datetime -> Row datetime -> bool)
    (l : DataFrame datetime) :
  Permutation (sort_values le l) l.
Proof.
  induction l as [ | x l IH]; cbn [sort_values].
  - apply perm_nil.
  - apply perm_trans with (x :: sort_values le l).
    + apply insert_row_perm.
    + apply perm_skip. exact IH.
Qed.

Lemma filter_perm {A} (f : A -> bool) (l l' : list A) :
  Permutation l l' -> Permutation (filter f l) (filter f l').
Proof.
  induction 1 as [ | x l l' _ IH | x y l | l l' l'' _ IH1 _ IH2 ]; cbn [filter].
  - apply perm_nil.
  - destruct (f x); [apply perm_skip | ]; exact IH.
  - destruct (f x), (f y); try apply Permutation_refl. apply perm_swap.
  - apply perm_trans with (filter f l'); assumption.
Qed.

Lemma filter_and {A} (f g : A -> bool) (l : list A) :
  filter f (filter g l) = filter (fun x => f x && g x) l.
Proof.
  induction l as [ | x l IH]; cbn [filter]; [reflexivity | ].
  destruct (g x); cbn [filter].
  - rewrite andb_true_r. destruct (f x); rewrite IH; reflexivity.
  - rewrite andb_false_r. exact IH.
Qed.

Lemma filter_agree {A} (f g : A -> bool) (l : list A) :
  (forall x, In x l -> f x = g x) -> filter f l = filter g l.
Proof.
  induction l as [ | x l IH]; intros H; cbn [filter]; [reflexivity | ].
  rewrite (H x (or_introl eq_refl)), IH; [reflexivity | ].
  intros y Hy. apply H. right. exact Hy.
Qed.

(** The filtered frame holds the rows that pass both filters. *)
Lemma filtered_df_perm (now : datetime) (ui : controls) (df : DataFrame datetime) :
  Permutation (filtered_df now ui df)
    (filter (fun row => date_ok now (date_filter ui) row
                        && isin (rating_filter ui) (rating row)) df).
Proof.
  unfold filtered_df.
  eapply perm_trans; [apply sort_values_perm | ].
  rewrite filter_and. apply Permutation_refl.
Qed.

(** The critical export in terms of the loaded frame. *)
Lemma critical_filtered (now : datetime) (ui : controls) (df : DataFrame datetime) :
  Permutation (critical (filtered_df now ui df))
    (filter (fun row => (rating row <=? 2)%Z
                        && (date_ok now (date_filter ui) row
                            && isin (rating_filter ui) (rating row))) df).
Proof.
  unfold critical.
  eapply perm_trans; [apply filter_perm, filtered_df_perm | ].
  rewrite filter_and. apply Permutation_refl.
Qed.

End Exports.

Section AdminRun.

Import AdminDashboard.

(** One click presses one button. *)
Lemma one_button_per_run (ui : controls) (a b : button) :
  st_button a ui = true -> a <> b -> st_button b ui = false.
Proof.
  unfold st_button. destruct (clicked ui) as [c | ]; [ | discriminate].
  destruct c, a, b; cbn; congruence.
Qed.

Lemma set_page_same (w : World) : set_page (page w) w = w.
Proof. destruct w. reflexivity. Qed.

(** The loop over the rows only renders, up to the first label that
    raises. *)
Lemma detail_cards_run (rows : DataFrame datetime) (w : World) :
  detail_cards rows w =
  (snd (cards rows), set_page (page w ++ fst (cards rows)) w).
Proof.
  revert w. induction rows as [ | row rows IH]; intros w; cbn [detail_cards cards].
  - cbn [fst snd]. rewrite app_nil_r, set_page_same. reflexivity.
  - unfold bind at 1. unfold lift.
    destruct (expander_label row) as [label | e]; cbn [fst snd].
    + unfold bind, render. rewrite IH. world_simpl.
      rewrite <- app_assoc. reflexivity.
    + rewrite app_nil_r, set_page_same. reflexivity.
Qed.

Lemma detail_list_run (filtered : DataFrame datetime) (w : World) :
  detail_list filtered w =
  (snd (details filtered), set_page (page w ++ fst (details filtered)) w).
Proof.
  unfold detail_list, details. destruct (df_empty filtered).
  - reflexivity.
  - apply detail_cards_run.
Qed.

(** One pass over the script that is not started by a Refresh click: the
    frame is loaded; without rows the notice is shown and the script stops;
    with rows the view is rendered. *)
Lemma script_pass (ui : controls) (w : World) :
  st_button Refresh ui = false ->
  script ui w =
  let wl := load_data (snd (initialize_csv w)) in
  match fst wl with
  | Raise e => (Raise e, snd wl)
  | Ok df =>
    if df_empty df
    then (Raise StopException,
          set_page (page (snd wl) ++ [st_info MSG_NO_REVIEWS]) (snd wl))
    else (snd (view ui (clock (snd wl)) df),
          set_page (page (snd wl) ++ fst (view ui (clock (snd wl)) df)) (snd wl))
  end.
Proof.
  intros Hr. unfold script. unfold bind at 1.
  pose proof (initialize_csv_result w) as Hi.
  destruct (initialize_csv w) as [o wi]. injection Hi as -> _. cbn [snd].
  unfold bind at 1. rewrite Hr. unfold ret at 1. unfold bind at 1.
  cbv zeta. destruct (load_data wi) as [[df | e] w1]; cbn [fst snd]; [ | reflexivity].
  destruct (df_empty df) eqn:Hempty.
  - unfold bind, render, raise. reflexivity.
  - unfold bind at 1. unfold datetime_now. unfold bind at 1.
    rewrite detail_list_run. unfold view.
    destruct (snd (details (filtered_df (clock w1) ui df))) as [[] | e]; cbn [fst snd].
    + unfold bind, render. world_simpl.
      destruct (st_button ClearAllData ui) eqn:Hc.
      * rewrite (@one_button_per_run ui ClearAllData ConfirmDelete Hc) by discriminate.
        unfold ret. world_simpl. rewrite <- !app_assoc. reflexivity.
      * unfold ret. world_simpl. rewrite <- !app_assoc. reflexivity.
    + reflexivity.
Qed.

(** A pass started by a Refresh click drops the cache and asks for a
    rerun. *)
Lemma script_refresh (ui : controls) (w : World) :
  st_button Refresh ui = true ->
  script ui w = (Raise RerunException, set_cache None (snd (initialize_csv w))).
Proof.
  intros Hr. unfold script. unfold bind at 1.
  pose proof (initialize_csv_result w) as Hi.
  destruct (initialize_csv w) as [o wi]. injection Hi as -> _. cbn [snd].
  unfold bind at 1. rewrite Hr. reflexivity.
Qed.

End AdminRun.

Section AdminLoad.

Import AdminDashboard.

Lemma records_init (w : World) : records (snd (initialize_csv w)) = records w.
Proof.
  rewrite initialize_csv_result. unfold records. cbn [snd].
  destruct (data_file w) eqn:E; [rewrite E | ]; reflexivity.
Qed.

Lemma read_frame_init (w : World) :
  read_frame (snd (initialize_csv w)) = read_frame w.
Proof.
  rewrite initialize_csv_result. unfold read_frame. cbn [snd].
  destruct (data_file w) eqn:E; [rewrite E | ]; reflexivity.
Qed.

Lemma cache_lookup_init (w : World) :
  cache_lookup (snd (initialize_csv w)) = cache_lookup w.
Proof.
  rewrite initialize_csv_result. cbn [snd].
  destruct (data_file w); reflexivity.
Qed.

Lemma init_fields (w : World) :
  page (snd (initialize_csv w)) = page w
  /\ clock (snd (initialize_csv w)) = clock w
  /\ timer (snd (initialize_csv w)) = timer w
  /\ cache (snd (initialize_csv w)) = cache w.
Proof.
  rewrite initialize_csv_result. cbn [snd].
  destruct (data_file w); repeat split.
Qed.

(** [load_data] neither reads nor writes the page, and leaves the file and
    the clock as they are. *)
Lemma load_data_fields (w : World) :
  page (snd (load_data w)) = page w
  /\ clock (snd (load_data w)) = clock w
  /\ data_file (snd (load_data w)) = data_file w
  /\ timer (snd (load_data w)) = timer w.
Proof.
  rewrite load_data_result.
  destruct (cache_lookup w); [repeat split | ].
  destruct (read_frame w); repeat split.
Qed.

(** Creating the missing data file and blanking the page do not change
    what [load_data] returns and caches. *)
Lemma load_data_init (p : list element) (w : World) :
  let wl := load_data (snd (initialize_csv (set_page p w))) in
  fst wl = fst (load_data w)
  /\ page (snd wl) = p
  /\ clock (snd wl) = clock w
  /\ records (snd wl) = records w
  /\ cache (snd wl) = cache (snd (load_data w)).
Proof.
  cbv zeta.
  destruct (load_data_fields (snd (initialize_csv (set_page p w))))
    as (Hp & Hc & Hf & _).
  destruct (init_fields (set_page p w)) as (Hp0 & Hc0 & Ht0 & Hk0).
  split; [ | split; [ | split; [ | split]]].
  - rewrite !load_data_result, cache_lookup_init, read_frame_init.
    change (cache_lookup (set_page p w)) with (cache_lookup w).
    change (read_frame (set_page p w)) with (read_frame w).
    destruct (cache_lookup w); [reflexivity | ].
    destruct (read_frame w); reflexivity.
  - rewrite Hp, Hp0. reflexivity.
  - rewrite Hc, Hc0. reflexivity.
  - unfold records at 1. rewrite Hf. fold (records (snd (initialize_csv (set_page p w)))).
    rewrite records_init. reflexivity.
  - rewrite !load_data_result, cache_lookup_init, read_frame_init.
    change (cache_lookup (set_page p w)) with (cache_lookup w).
    change (read_frame (set_page p w)) with (read_frame w).
    destruct (cache_lookup w); [exact Hk0 | ].
    destruct (read_frame w); cbn [snd cache set_cache]; [ | exact Hk0].
    rewrite Ht0. reflexivity.
Qed.

Lemma to_datetime_raises (s : pystr) (e : exn) :
  to_datetime s = Raise e -> e = ValueError.
Proof.
  unfold to_datetime. intros H.
  repeat match type of H with
         | match ?x with _ => _ end = _ => destruct x
         | (if ?b then _ else _) = _ => destruct b
         end; congruence.
Qed.

Lemma to_datetime_column_raises (df : DataFrame pystr) (e : exn) :
  to_datetime_column df = Raise e -> e = ValueError.
Proof.
  induction df as [ | row df IH]; cbn [to_datetime_column]; [discriminate | ].
  unfold convert_row.
  destruct (to_datetime (timestamp row)) as [d | e1] eqn:Hd.
  - destruct (to_datetime_column df) as [rs | e2]; [discriminate | ].
    intros H. injection H as <-. apply IH. reflexivity.
  - intros H. injection H as <-. exact (@to_datetime_raises _ _ Hd).
Qed.

(** [load_data] raises only what the conversion of the timestamps raises. *)
Lemma load_data_raises (w : World) (e : exn) :
  fst (load_data w) = Raise e -> e = ValueError.
Proof.
  rewrite load_data_result. destruct (cache_lookup w); [discriminate | ].
  destruct (read_frame w) as [v | e1] eqn:Hr; [discriminate | ].
  cbn [fst]. intros H. injection H as <-.
  unfold read_frame in Hr. destruct (data_file w) as [ls | ]; [ | discriminate].
  destruct (0 <? length (parse_lines ls))%nat; [ | discriminate].
  exact (@to_datetime_column_raises _ _ Hr).
Qed.

Lemma cards_raises (rows : DataFrame datetime) (e : exn) :
  snd (cards rows) = Raise e -> e = TypeError.
Proof.
  induction rows as [ | row rows IH]; cbn [cards]; [discriminate | ].
  destruct (expander_label row) as [label | e1] eqn:Hl; cbn [snd]; [exact IH | ].
  intros H. injection H as <-.
  unfold expander_label in Hl.
  destruct (ai_summary row); cbn in Hl; congruence.
Qed.

Lemma view_raises (ui : controls) (now : datetime) (df : DataFrame datetime)
    (e : exn) :
  snd (view ui now df) = Raise e -> e = TypeError.
Proof.
  unfold view, details.
  destruct (df_empty (filtered_df now ui df)); cbn [snd fst]; [discriminate | ].
  destruct (snd (cards (filtered_df now ui df))) as [[] | e1] eqn:Hc;
    cbn [snd]; [discriminate | ].
  intros H. injection H as <-. exact (@cards_raises _ _ Hc).
Qed.

(** The interaction when the click, if any, is not on Refresh: one pass. *)
Lemma run_pass (ui : controls) (w : World) :
  st_button Refresh ui = false ->
  run ui w = finish (script ui (set_page [] w)).
Proof.
  intros Hr. unfold run. rewrite (@script_pass ui (set_page [] w) Hr). cbv zeta.
  destruct (fst (load_data (snd (initialize_csv (set_page [] w))))) as [df | e] eqn:Hl.
  - destruct (df_empty df); [reflexivity | ].
    destruct (snd (view ui (clock (snd (load_data (snd (initialize_csv (set_page [] w))))))
                     df)) as [[] | e] eqn:Hv; [reflexivity | ].
    rewrite (@view_raises _ _ _ _ Hv). reflexivity.
  - rewrite (@load_data_raises _ _ Hl). reflexivity.
Qed.

(** The page, the cache and the store after an interaction that loads a
    frame with rows. *)
Lemma run_view (ui : controls) (w : World) (df : DataFrame datetime) :
  fst (load_data w) = Ok df ->
  df <> [] ->
  st_button Refresh ui = false ->
  page (run ui w) =
    fst (view ui (clock w) df)
    ++ match snd (view ui (clock w) df) with
       | Raise e => [st_exception e]
       | Ok _ => []
       end
  /\ cache (run ui w) = cache (snd (load_data w)).
Proof.
  intros Hl Hne Hr. rewrite (@run_pass ui w Hr), (@script_pass ui (set_page [] w) Hr). cbv zeta.
  destruct (load_data_init [] w) as (H1 & H2 & H3 & _ & H5).
  rewrite H1, Hl, H3.
  destruct df as [ | row df']; [congruence | ]. cbn [df_empty].
  destruct (snd (view ui (clock w) (row :: df'))) as [[] | e] eqn:Hv.
  - cbn [finish]. world_simpl. rewrite H2, app_nil_r. split; [reflexivity | exact H5].
  - rewrite (@view_raises _ _ _ _ Hv). cbn [finish is_Exception]. world_simpl.
    rewrite H2. split; [reflexivity | exact H5].
Qed.

(** The cards are cards. *)
Lemma cards_no_download (rows : DataFrame datetime) :
  Forall (fun e => is_download e = false) (fst (cards rows)).
Proof.
  induction rows as [ | row rows IH]; cbn [cards]; [constructor | ].
  destruct (expander_label row); cbn [fst]; constructor; [reflexivity | exact IH].
Qed.



(** A summary that cannot be sliced stops the loop. *)
Lemma cards_unsubscriptable (rows : DataFrame datetime) (row : Row datetime) :
  In row rows -> unsubscriptable (ai_summary row) = true ->
  exists e, snd (cards rows) = Raise e.
Proof.
  induction rows as [ | x rows IH]; intros Hin Hu; [contradiction | ].
  cbn [cards]. destruct (expander_label x) as [label | e] eqn:Hl; cbn [snd].
  - destruct Hin as [-> | Hin]; [ | exact (IH Hin Hu)].
    unfold expander_label in Hl.
    destruct (ai_summary row); cbn in Hu, Hl; congruence.
  - exists e. reflexivity.
Qed.

(** A loaded record that passes the filters and whose summary cannot be
    sliced keeps the exports off the page. *)
Lemma blocked_page (ui : controls) (w : World) (df : DataFrame datetime)
    (row : Row datetime) :
  fst (load_data w) = Ok df ->
  st_button Refresh ui = false ->
  In row df ->
  date_ok (clock w) (date_filter ui) row
  && isin (rating_filter ui) (rating row) = true ->
  unsubscriptable (ai_summary row) = true ->
  forall label data,
    ~ In (st_download_button label data) (page (run ui w)).
Proof.
  intros Hl Hr Hin Hsel Hu label data Hd.
  assert (Hne : df <> []) by (destruct df; [contradiction | discriminate]).
  destruct (@run_view ui w df Hl Hne Hr) as [Hpage _].
  pose proof (filtered_df_perm (clock w) ui df) as Hperm.
  assert (Hshown : In row (filtered_df (clock w) ui df)).
  { apply (Permutation_in _ (Permutation_sym Hperm)).
    apply filter_In. split; assumption. }
  assert (Hdet : details (filtered_df (clock w) ui df)
                 = cards (filtered_df (clock w) ui df)).
  { unfold details.
    destruct (filtered_df (clock w) ui df); [contradiction | reflexivity]. }
  destruct (@cards_unsubscriptable _ row Hshown Hu) as [e He].
  unfold view in Hpage. rewrite Hdet, He in Hpage. cbn [fst snd] in Hpage.
  rewrite Hpage in Hd. apply in_app_or in Hd. destruct Hd as [Hd | Hd].
  - pose proof (cards_no_download (filtered_df (clock w) ui df)) as Hc.
    rewrite Forall_forall in Hc. specialize (Hc _ Hd). discriminate Hc.
  - destruct Hd as [Hd | []]. discriminate Hd.
Qed.

End AdminLoad.



(** The second half of C8 on an example: the store holds a one-star record
    whose summary field is empty (the model's JSON had [null] there).  The
    field is loaded as a missing value, the label of the record's card
    raises, and the page shows the exception and no export. *)
Lemma missing_summary_hides_exports :
  let w := Samples.one_unsummarised in
  (exists L,
      fst (AdminDashboard.load_data w) = Ok L
      /\ map (@ai_summary datetime) L = [NaN])
  /\ page (AdminDashboard.run Samples.defaults w) = [st_exception TypeError].
Proof.
  cbv zeta. split; [eexists; split | ]; vm_compute; reflexivity.
Qed.


Section ClearControl.

Import AdminDashboard.

(** One pass over the admin script writes no record and removes none. *)
Lemma script_keeps_records (ui : controls) (w : World) :
  records (snd (script ui w)) = records w.
Proof.
  destruct (st_button Refresh ui) eqn:Hr.
  - rewrite (@script_refresh ui w Hr). cbn [snd].
    change (records (set_cache None (snd (initialize_csv w))))
      with (records (snd (initialize_csv w))).
    apply records_init.
  - rewrite (@script_pass ui w Hr). cbv zeta.
    assert (Hrec : records (snd (load_data (snd (initialize_csv w)))) = records w).
    { destruct (load_data_fields (snd (initialize_csv w))) as (_ & _ & Hf & _).
      unfold records at 1. rewrite Hf.
      fold (records (snd (initialize_csv w))). apply records_init. }
    destruct (fst (load_data (snd (initialize_csv w)))) as [df | e];
      [ | exact Hrec].
    destruct (df_empty df); exact Hrec.
Qed.

Lemma finish_records (r : res unit * World) :
  records (finish r) = records (snd r).
Proof.
  destruct r as [[[] | e] w']; cbn [finish snd]; [reflexivity | ].
  destruct (is_Exception e); reflexivity.
Qed.

Lemma run_keeps_records (ui : controls) (w : World) :
  records (run ui w) = records w.
Proof.
  unfold run.
  pose proof (script_keeps_records ui (set_page [] w)) as H1.
  destruct (script ui (set_page [] w)) as [res w1]. cbn [snd] in H1.
  change (records (set_page [] w)) with (records w) in H1.
  destruct res as [[] | e].
  - rewrite finish_records. exact H1.
  - destruct e; try (rewrite finish_records; exact H1).
    rewrite finish_records, script_keeps_records. exact H1.
Qed.

End ClearControl.

(** C9, on the code. No sequence of interactions with the admin page
    changes the records of the store: the statements under [Confirm Delete]
    run only in a pass where both buttons report a click, and a pass is
    started by one click.  In particular the clear never executes. *)
Theorem admin_session_never_clears :
  forall (uis : list AdminDashboard.controls) (w : World),
    records (AdminDashboard.session uis w) = records w.
Proof.
  intros uis. unfold AdminDashboard.session.
  induction uis as [ | ui uis IH]; intros w; cbn [fold_left].
  - reflexivity.
  - rewrite IH. apply run_keeps_records.
Qed.

(** The two clicks of the clear-all control, on a store with one record:
    the first click shows the warning after the exports, the second starts
    a pass in which the outer button reports no click, and the record is
    still there. *)
Lemma confirm_delete_leaves_store :
  let w := Samples.one_critical in
  (exists label,
      page (AdminDashboard.run (Samples.click AdminDashboard.ClearAllData) w) =
      [st_expander label;
       st_download_button AdminDashboard.LABEL_CSV [Samples.terrible_loaded];
       st_download_button AdminDashboard.LABEL_CRITICAL [Samples.terrible_loaded];
       st_warning AdminDashboard.MSG_UNDONE])
  /\ records (AdminDashboard.session
                [Samples.click AdminDashboard.ClearAllData;
                 Samples.click AdminDashboard.ConfirmDelete] w)
     = [Samples.terrible_stored].
Proof.
  cbv zeta. split; [eexists | ]; vm_compute; reflexivity.
Qed.

(* ================================================================== *)
(** ** Further properties of the two pages *)

Section Trimming.

Lemma lstrip_head (s : pystr) :
  match lstrip s with [] => True | c :: _ => isspace c = false end.
Proof.
  induction s as [ | c s IH]; cbn [lstrip]; [exact I | ].
  destruct (isspace c) eqn:Hc; [exact IH | exact Hc].
Qed.

Lemma lstrip_nil (s : pystr) :
  lstrip s = [] <-> forallb isspace s = true.
Proof.
  induction s as [ | c s IH]; cbn [lstrip forallb]; [tauto | ].
  destruct (isspace c); cbn [andb]; [exact IH | ].
  split; discriminate.
Qed.

Lemma lstrip_snoc (u : pystr) (c : N) :
  isspace c = false -> lstrip (u ++ [c]) = lstrip u ++ [c].
Proof.
  intros Hc. induction u as [ | x u IH]; cbn [app lstrip].
  - rewrite Hc. reflexivity.
  - destruct (isspace x); [exact IH | reflexivity].
Qed.

Lemma rstrip_cons (c : N) (t : pystr) :
  isspace c = false -> rstrip (c :: t) = c :: rstrip t.
Proof.
  intros Hc. unfold rstrip. cbn [rev].
  rewrite (@lstrip_snoc (rev t) c Hc), rev_app_distr. reflexivity.
Qed.

Lemma strip_trimmed (s : pystr) : trimmed (strip s).
Proof.
  unfold trimmed, strip. split.
  - pose proof (lstrip_head s) as H.
    destruct (lstrip s) as [ | c t]; [exact I | ].
    rewrite (@rstrip_cons c t H). exact H.
  - unfold rstrip. rewrite rev_involutive. apply lstrip_head.
Qed.

Lemma strip_nil (s : pystr) :
  strip s = [] <-> forallb isspace s = true.
Proof.
  rewrite <- lstrip_nil. unfold strip.
  pose proof (lstrip_head s) as H.
  destruct (lstrip s) as [ | c t]; [split; reflexivity | ].
  rewrite (@rstrip_cons c t H). split; discriminate.
Qed.


Lemma lstrip_split (s : pystr) :
  exists pre, s = pre ++ lstrip s /\ forallb isspace pre = true.
Proof.
  induction s as [ | c s IH]; cbn [lstrip].
  - exists []. split; reflexivity.
  - destruct (isspace c) eqn:Hc.
    + destruct IH as (pre & Hs & Hp). exists (c :: pre). split.
      * cbn [app]. rewrite <- Hs. reflexivity.
      * cbn [forallb]. rewrite Hc, Hp. reflexivity.
    + exists []. split; reflexivity.
Qed.

Lemma forallb_rev {A} (f : A -> bool) (l : list A) :
  forallb f l = true -> forallb f (rev l) = true.
Proof.
  rewrite !forallb_forall. intros H x Hx. apply H, in_rev, Hx.
Qed.

(** [strip] removes a run of whitespace at each end, and nothing else. *)
Lemma strip_split (s : pystr) :
  exists pre post,
    s = pre ++ strip s ++ post
    /\ forallb isspace pre = true /\ forallb isspace post = true.
Proof.
  destruct (lstrip_split s) as (pre & Hs & Hpre).
  destruct (lstrip_split (rev (lstrip s))) as (q & Hr & Hq).
  exists pre, (rev q). split; [ | split; [exact Hpre | apply forallb_rev, Hq]].
  unfold strip, rstrip.
  rewrite <- rev_app_distr, <- Hr, rev_involutive. exact Hs.
Qed.

End Trimming.

(** X1. The reply of [generate_ai_response] is the model's text with the
    whitespace at its two ends removed and nothing else: the text is the
    reply between two runs of whitespace, and the reply neither begins nor
    ends with whitespace.  It is empty exactly when the model's text
    consists of whitespace only. *)
Theorem reply_is_trimmed :
  forall (r : Z) (t content : pystr) (w : World),
    endpoint w (length (sent w)) (UserDashboard.response_prompt r t) = Ok content ->
    exists reply pre post,
      fst (UserDashboard.generate_ai_response r t w) = Ok reply
      /\ content = pre ++ reply ++ post
      /\ forallb isspace pre = true
      /\ forallb isspace post = true
      /\ trimmed reply
      /\ (reply = [] <-> forallb isspace content = true).
Proof.
  intros r t content w Hcall.
  destruct (strip_split content) as (pre & post & Hs & Hpre & Hpost).
  exists (strip content), pre, post.
  rewrite generate_ai_response_result, Hcall. cbn [fst].
  split; [reflexivity | ]. split; [exact Hs | ].
  split; [exact Hpre | ]. split; [exact Hpost | ].
  split; [apply strip_trimmed | apply strip_nil].
Qed.

Lemma reply_is_trimmed_witness :
  let w := Samples.world_with (Samples.always (lit " Thank you! ")) in
  endpoint w (length (sent w)) (UserDashboard.response_prompt 4 (lit "Good"))
    = Ok (lit " Thank you! ")
  /\ exists reply pre post,
      fst (UserDashboard.generate_ai_response 4 (lit "Good") w) = Ok reply
      /\ lit " Thank you! " = pre ++ reply ++ post
      /\ forallb isspace pre = true
      /\ forallb isspace post = true
      /\ trimmed reply
      /\ (reply = [] <-> forallb isspace (lit " Thank you! ") = true).
Proof.
  intros w.
  assert (H : endpoint w (length (sent w))
                (UserDashboard.response_prompt 4 (lit "Good"))
              = Ok (lit " Thank you! ")) by reflexivity.
  split; [exact H | ].
  exact (@reply_is_trimmed 4 (lit "Good") (lit " Thank you! ") w H).
Defined.

Section Prompts.

Import UserDashboard.

Lemma on_submit_sent (r : Z) (t : pystr) (w : World) :
  strip t <> [] ->
  sent (snd (on_submit r t w)) =
  sent w ++
  match endpoint w (length (sent w)) (response_prompt r t) with
  | Ok _ => [response_prompt r t; analysis_prompt r t]
  | Raise _ => [response_prompt r t]
  end.
Proof.
  intros Ht.
  destruct (on_submit r t w) as [o wf] eqn:Hrun. cbn [snd].
  unfold on_submit in Hrun.
  destruct (strip t) as [ | ch rest] eqn:Hs; [ congruence | ]. cbn [falsy] in Hrun.
  unfold try_except, bind at 1 in Hrun. rewrite generate_ai_response_result in Hrun.
  destruct (endpoint w (length (sent w)) (response_prompt r t)) as [c1 | e] eqn:H1.
  - unfold bind at 1 in Hrun. rewrite generate_summary_and_actions_run in Hrun.
    cbn [sent set_sent endpoint] in Hrun.
    destruct (endpoint w (length (sent w ++ [response_prompt r t]))
                (analysis_prompt r t)) as [c2 | e] eqn:H2.
    + destruct (summary_and_actions_of r c2) as [sm ac] eqn:Hp.
      unfold bind in Hrun. rewrite save_review_result in Hrun.
      cbn [data_file set_sent] in Hrun.
      destruct (data_file w) as [df | ].
      * unfold render, ret in Hrun.
        destruct (r =? 5)%Z; injection Hrun as _ <-; world_simpl;
          rewrite <- app_assoc; reflexivity.
      * cbn [is_Exception] in Hrun. unfold bind, render in Hrun.
        injection Hrun as _ <-. world_simpl. rewrite <- app_assoc. reflexivity.
    + destruct (is_Exception e); [unfold bind, render in Hrun | ];
        injection Hrun as _ <-; world_simpl; rewrite <- app_assoc; reflexivity.
  - destruct (is_Exception e); [unfold bind, render in Hrun | ];
      injection Hrun as _ <-; world_simpl; reflexivity.
Qed.

End Prompts.

(** X2. A submission with a non-blank review sends the reply prompt first
    and the analysis prompt only if the reply call returned: one prompt when
    the first call raises, two otherwise, and never a retry. *)
Theorem submission_sends_at_most_two_prompts :
  forall (r : Z) (t : pystr) (w : World),
    strip t <> [] ->
    sent (snd (UserDashboard.script (UserDashboard.mkForm r t true) w)) =
    sent w ++
    match endpoint w (length (sent w)) (UserDashboard.response_prompt r t) with
    | Ok _ => [UserDashboard.response_prompt r t; UserDashboard.analysis_prompt r t]
    | Raise _ => [UserDashboard.response_prompt r t]
    end.
Proof.
  intros r t w Ht. rewrite script_submitted.
  destruct (data_file w); [apply on_submit_sent; exact Ht | ].
  rewrite (@on_submit_sent r t (set_data_file (Some []) w) Ht). reflexivity.
Qed.

Lemma submission_prompts_witness :
  let r := 1%Z in
  let t := lit "Terrible" in
  let w := Samples.world_with
             (fun _ _ => Raise (ModelError (lit "Request timed out."))) in
  strip t <> []
  /\ sent (snd (UserDashboard.script (UserDashboard.mkForm r t true) w)) =
     sent w ++
     match endpoint w (length (sent w)) (UserDashboard.response_prompt r t) with
     | Ok _ => [UserDashboard.response_prompt r t; UserDashboard.analysis_prompt r t]
     | Raise _ => [UserDashboard.response_prompt r t]
     end.
Proof.
  intros r t w.
  assert (H : strip t <> []) by (vm_compute; discriminate).
  split; [exact H | ].
  exact (@submission_sends_at_most_two_prompts r t w H).
Defined.


Section Decoding.

Import UserDashboard.

Lemma scanstring_plain (s rest acc : pystr) :
  plain s -> scanstring (s ++ 34%N :: rest) acc = Some (rev acc ++ s, rest).
Proof.
  intros Hs. revert acc. induction Hs as [ | c s (Hlo & Hq & Hb) _ IH]; intros acc.
  - cbn [app scanstring N.eqb Pos.eqb]. rewrite app_nil_r. reflexivity.
  - cbn [app]. cbn [scanstring].
    replace (c =? 34)%N with false by (symmetry; apply N.eqb_neq; exact Hq).
    replace (c =? 92)%N with false by (symmetry; apply N.eqb_neq; exact Hb).
    replace (c <? 32)%N with false by (symmetry; apply N.ltb_ge; exact Hlo).
    rewrite IH. cbn [rev]. rewrite <- app_assoc. reflexivity.
Qed.

Lemma scan_once_string (fuel : nat) (s rest : pystr) :
  plain s ->
  scan_once (S fuel) (34%N :: s ++ 34%N :: rest) = Ok (PStr s, rest).
Proof.
  intros Hs. cbn [scan_once]. cbn [N.eqb Pos.eqb].
  rewrite (@scanstring_plain s rest [] Hs). reflexivity.
Qed.

(** The keys of the two fields, as code points. *)
Lemma key_summary : lit "summary" = [115; 117; 109; 109; 97; 114; 121]%N.
Proof. vm_compute. reflexivity. Qed.

Lemma key_actions :
  lit "recommended_actions" =
  [114; 101; 99; 111; 109; 109; 101; 110; 100; 101; 100; 95;
   97; 99; 116; 105; 111; 110; 115]%N.
Proof. vm_compute. reflexivity. Qed.

Lemma scan_once_answer (f : nat) (s a rest : pystr) :
  plain s -> plain a ->
  scan_once (S (S (S f))) (answer_text s a ++ rest) =
  Ok (PDict [(lit "summary", PStr s); (lit "recommended_actions", PStr a)], rest).
Proof.
  intros Hs Ha. rewrite key_summary, key_actions.
  unfold answer_text, ANSWER_OPEN, ANSWER_MIDDLE, ANSWER_CLOSE.
  rewrite <- !app_assoc. cbn [app].
  simpl scan_once.
  rewrite (@scanstring_plain s _ [] Hs). simpl.
  rewrite (@scanstring_plain a _ [] Ha). simpl.
  reflexivity.
Qed.

Lemma strip_fixed (x : pystr) :
  trimmed x -> strip x = x.
Proof.
  intros [Hh Hl]. unfold strip.
  assert (H1 : lstrip x = x).
  { destruct x as [ | c t]; [reflexivity | ]. cbn [lstrip]. rewrite Hh. reflexivity. }
  rewrite H1. unfold rstrip.
  destruct (rev x) as [ | d t] eqn:Hr.
  - rewrite <- (rev_involutive x), Hr. reflexivity.
  - cbn [lstrip]. rewrite Hl. rewrite <- Hr. apply rev_involutive.
Qed.

Lemma answer_text_trimmed (s a : pystr) : trimmed (answer_text s a).
Proof.
  unfold trimmed, answer_text. split.
  - unfold ANSWER_OPEN. cbn [app]. reflexivity.
  - rewrite !rev_app_distr. unfold ANSWER_CLOSE. cbn [rev app]. reflexivity.
Qed.

Lemma answer_text_length (s a : pystr) :
  exists m, length (answer_text s a) = S (S m).
Proof.
  unfold answer_text, ANSWER_OPEN. cbn [app length]. eexists. reflexivity.
Qed.

Lemma loads_answer_text (s a : pystr) :
  plain s -> plain a ->
  loads (answer_text s a) =
  Ok (PDict [(lit "summary", PStr s); (lit "recommended_actions", PStr a)]).
Proof.
  intros Hs Ha. unfold loads.
  destruct (answer_text_length s a) as [m Hm]. rewrite Hm.
  assert (Hhead : exists t, answer_text s a = 123%N :: t).
  { unfold answer_text, ANSWER_OPEN. cbn [app]. eexists. reflexivity. }
  destruct Hhead as [t Ht].
  assert (Hbom : startswith [65279%N] (answer_text s a) = false)
    by (rewrite Ht; reflexivity).
  assert (Hws : skip_ws (answer_text s a) = answer_text s a)
    by (rewrite Ht; reflexivity).
  rewrite Hbom, Hws.
  rewrite <- (app_nil_r (answer_text s a)).
  rewrite (@scan_once_answer m s a [] Hs Ha). reflexivity.
Qed.

End Decoding.

(** X4. When the model answers with the JSON object in the exact format the
    prompt shows, and its two texts need no escaping, the analyzer returns
    those two texts. *)
Theorem exact_format_answer_is_decoded :
  forall (r : Z) (s a : pystr),
    plain s -> plain a ->
    UserDashboard.summary_and_actions_of r (answer_text s a) = (PStr s, PStr a).
Proof.
  intros r s a Hs Ha.
  unfold UserDashboard.summary_and_actions_of, UserDashboard.parse_response.
  assert (Hun : UserDashboard.unfence (answer_text s a) = Ok (answer_text s a)).
  { unfold UserDashboard.unfence.
    rewrite (strip_fixed (answer_text_trimmed s a)).
    unfold answer_text, ANSWER_OPEN. cbn [app].
    replace UserDashboard.FENCE_JSON with ([96; 96; 96; 106; 115; 111; 110]%N)
      by (vm_compute; reflexivity).
    replace UserDashboard.FENCE with ([96; 96; 96]%N) by (vm_compute; reflexivity).
    reflexivity. }
  rewrite Hun. cbn [bind_res].
  rewrite (strip_fixed (answer_text_trimmed s a)).
  rewrite (loads_answer_text Hs Ha). cbn [bind_res].
  rewrite key_summary, key_actions. unfold get. cbn [dict_lookup].
  replace (Py.eqb [115; 117; 109; 109; 97; 114; 121]%N
             [115; 117; 109; 109; 97; 114; 121]%N) with true
    by (vm_compute; reflexivity).
  cbn [bind_res].
  replace (Py.eqb [115; 117; 109; 109; 97; 114; 121]%N
             [114; 101; 99; 111; 109; 109; 101; 110; 100; 101; 100; 95;
              97; 99; 116; 105; 111; 110; 115]%N) with false
    by (vm_compute; reflexivity).
  replace (Py.eqb [114; 101; 99; 111; 109; 109; 101; 110; 100; 101; 100; 95;
                   97; 99; 116; 105; 111; 110; 115]%N
             [114; 101; 99; 111; 109; 109; 101; 110; 100; 101; 100; 95;
              97; 99; 116; 105; 111; 110; 115]%N) with true
    by (vm_compute; reflexivity).
  reflexivity.
Qed.

Lemma exact_format_answer_witness :
  let s := lit "Slow delivery" in
  let a := lit "Call the customer" in
  (plain s /\ plain a)
  /\ UserDashboard.summary_and_actions_of 2 (answer_text s a) = (PStr s, PStr a).
Proof.
  intros s a.
  assert (Hs : plain s).
  { unfold plain. apply Forall_forall. intros c Hc. vm_compute in Hc.
    repeat (destruct Hc as [<- | Hc]; [repeat split; [lia | discriminate | discriminate] | ]).
    contradiction. }
  assert (Ha : plain a).
  { unfold plain. apply Forall_forall. intros c Hc. vm_compute in Hc.
    repeat (destruct Hc as [<- | Hc]; [repeat split; [lia | discriminate | discriminate] | ]).
    contradiction. }
  split; [split; [exact Hs | exact Ha] | ].
  exact (@exact_format_answer_is_decoded 2 s a Hs Ha).
Defined.

Section Fences.

Import UserDashboard.

Lemma FENCE_points : FENCE = [96; 96; 96]%N.
Proof. vm_compute. reflexivity. Qed.

Lemma FENCE_JSON_points : FENCE_JSON = [96; 96; 96; 106; 115; 111; 110]%N.
Proof. vm_compute. reflexivity. Qed.

(** Scanning for a separator that starts with a backtick passes over a text
    without backticks. *)
Lemma split_from_no_backtick (sep body rest cur : pystr) :
  no_backtick body ->
  split_from (96%N :: sep) (body ++ rest) 0 cur =
  split_from (96%N :: sep) rest 0 (rev body ++ cur).
Proof.
  intros Hb. revert cur. induction Hb as [ | c body Hc _ IH]; intros cur.
  - reflexivity.
  - cbn [app split_from startswith].
    replace (96 =? c)%N with false by (symmetry; apply N.eqb_neq; congruence).
    cbn [andb]. rewrite IH. cbn [rev]. rewrite <- app_assoc. reflexivity.
Qed.

Lemma lstrip_incl (s : pystr) (c : N) : In c (lstrip s) -> In c s.
Proof.
  induction s as [ | x s IH]; cbn [lstrip]; [tauto | ].
  destruct (isspace x); [intros H; right; apply IH, H | tauto].
Qed.

Lemma strip_incl (s : pystr) (c : N) : In c (strip s) -> In c s.
Proof.
  unfold strip, rstrip. intros H.
  apply lstrip_incl. apply in_rev. apply lstrip_incl. apply in_rev.
  exact H.
Qed.

Lemma strip_no_backtick (s : pystr) : no_backtick s -> no_backtick (strip s).
Proof.
  unfold no_backtick. rewrite !Forall_forall. intros H c Hc.
  apply H, strip_incl, Hc.
Qed.

Lemma no_backtick_no_fence (s : pystr) :
  no_backtick s -> startswith FENCE s = false /\ startswith FENCE_JSON s = false.
Proof.
  intros Hs. rewrite FENCE_points, FENCE_JSON_points.
  destruct Hs as [ | c s Hc _]; [split; reflexivity | ].
  cbn [startswith].
  replace (96 =? c)%N with false by (symmetry; apply N.eqb_neq; congruence).
  split; reflexivity.
Qed.

(** Without a fence, the text is only trimmed. *)
Lemma unfence_bare (body : pystr) :
  no_backtick body -> unfence body = Ok (strip body).
Proof.
  intros Hb. unfold unfence.
  destruct (no_backtick_no_fence (strip_no_backtick Hb)) as [H1 H2].
  rewrite H1, H2. reflexivity.
Qed.

Lemma fenced_trimmed (open body : pystr) :
  trimmed ((96%N :: open) ++ body ++ [96; 96; 96]%N).
Proof.
  unfold trimmed. split; [reflexivity | ].
  rewrite !rev_app_distr. reflexivity.
Qed.

(** Inside a [json] fence. *)
Lemma unfence_json (body : pystr) :
  no_backtick body -> unfence (FENCE_JSON ++ body ++ FENCE) = Ok body.
Proof.
  intros Hb. unfold unfence. rewrite FENCE_points, FENCE_JSON_points.
  rewrite (strip_fixed (fenced_trimmed [96; 96; 106; 115; 111; 110]%N body)).
  cbn [app startswith N.eqb Pos.eqb andb].
  unfold split. cbn [split_from startswith N.eqb Pos.eqb andb length Nat.sub].
  rewrite (@split_from_no_backtick [96; 96; 106; 115; 111; 110]%N body _ [] Hb).
  cbn [split_from startswith N.eqb Pos.eqb andb app rev index nth_error bind_res].
  rewrite !rev_app_distr, rev_involutive. cbn [rev app].
  rewrite <- !app_assoc. cbn [app].
  rewrite (@split_from_no_backtick [96; 96]%N body _ [] Hb).
  cbn [split_from startswith N.eqb Pos.eqb andb app index nth_error].
  rewrite app_nil_r, rev_involutive. reflexivity.
Qed.

Lemma startswith_before_backtick (p b x : pystr) :
  no_backtick p ->
  startswith p (b ++ 96%N :: x) = true -> startswith p b = true.
Proof.
  intros Hp. revert b. induction Hp as [ | a p Ha _ IH]; intros b H.
  - destruct b; reflexivity.
  - destruct b as [ | c b]; cbn [app startswith] in *.
    + replace (a =? 96)%N with false in H by (symmetry; apply N.eqb_neq; exact Ha).
      discriminate H.
    + apply andb_true_iff in H. destruct H as [H1 H2].
      rewrite H1, (IH b H2). reflexivity.
Qed.

Lemma startswith_cons (a : N) (p s : pystr) :
  startswith (a :: p) (a :: s) = startswith p s.
Proof. cbn [startswith]. rewrite N.eqb_refl. reflexivity. Qed.

(** Inside a plain fence. *)
Lemma unfence_plain (body : pystr) :
  no_backtick body ->
  startswith (lit "json") body = false ->
  unfence (FENCE ++ body ++ FENCE) = Ok body.
Proof.
  intros Hb Hj. unfold unfence. rewrite FENCE_points, FENCE_JSON_points.
  rewrite (strip_fixed (fenced_trimmed [96; 96]%N body)).
  cbn [app]. rewrite !startswith_cons.
  assert (Hno : startswith [106; 115; 111; 110]%N (body ++ [96; 96; 96]%N) = false).
  { destruct (startswith [106; 115; 111; 110]%N (body ++ [96; 96; 96]%N)) eqn:E;
      [ | reflexivity].
    apply startswith_before_backtick in E.
    - replace (lit "json") with ([106; 115; 111; 110]%N) in Hj
        by (vm_compute; reflexivity).
      congruence.
    - repeat constructor; discriminate. }
  rewrite Hno. cbn [startswith].
  unfold split. cbn [split_from startswith N.eqb Pos.eqb andb length Nat.sub].
  rewrite (@split_from_no_backtick [96; 96]%N body _ [] Hb).
  cbn [split_from startswith N.eqb Pos.eqb andb app rev index nth_error bind_res
       length Nat.sub].
  rewrite app_nil_r, rev_involutive.
  rewrite <- (app_nil_r body) at 1.
  rewrite (@split_from_no_backtick [96; 96]%N body [] [] Hb).
  cbn [split_from index nth_error]. rewrite app_nil_r, rev_involutive. reflexivity.
Qed.

End Fences.

(** X5. An enclosing code fence does not change what the analyzer returns:
    for a response body without backticks, the body inside a [json] fence
    and the body inside a plain fence (when it does not itself begin with
    [json]) are analysed exactly as the bare body. *)
Theorem code_fence_is_transparent :
  forall (r : Z) (body : pystr),
    no_backtick body ->
    UserDashboard.summary_and_actions_of r
      (UserDashboard.FENCE_JSON ++ body ++ UserDashboard.FENCE)
    = UserDashboard.summary_and_actions_of r body
    /\ (startswith (lit "json") body = false ->
        UserDashboard.summary_and_actions_of r
          (UserDashboard.FENCE ++ body ++ UserDashboard.FENCE)
        = UserDashboard.summary_and_actions_of r body).
Proof.
  intros r body Hb.
  assert (Hbare : UserDashboard.parse_response body =
                  bind_res (loads (strip body)) (fun data =>
                  bind_res (get data (lit "summary")
                              (PStr (lit "Summary not available"))) (fun summary =>
                  bind_res (get data (lit "recommended_actions")
                              (PStr (lit "Actions not available"))) (fun actions =>
                  Ok (summary, actions))))).
  { unfold UserDashboard.parse_response. rewrite (unfence_bare Hb).
    cbn [bind_res]. rewrite (strip_fixed (strip_trimmed body)). reflexivity. }
  unfold UserDashboard.summary_and_actions_of. rewrite Hbare. split.
  - unfold UserDashboard.parse_response. rewrite (unfence_json Hb). reflexivity.
  - intros Hj. unfold UserDashboard.parse_response.
    rewrite (unfence_plain Hb Hj). reflexivity.
Qed.

Lemma no_backtick_check (s : pystr) :
  forallb (fun c => negb (c =? 96)%N) s = true -> no_backtick s.
Proof.
  intros H. unfold no_backtick. apply Forall_forall. intros c Hc.
  rewrite forallb_forall in H. specialize (H c Hc).
  apply negb_true_iff, N.eqb_neq in H. exact H.
Qed.

Lemma code_fence_witness :
  let body := [10%N] ++ answer_text (lit "Slow delivery") (lit "Call the customer")
              ++ [10%N] in
  no_backtick body
  /\ (UserDashboard.summary_and_actions_of 2
        (UserDashboard.FENCE_JSON ++ body ++ UserDashboard.FENCE)
      = UserDashboard.summary_and_actions_of 2 body
      /\ (startswith (lit "json") body = false ->
          UserDashboard.summary_and_actions_of 2
            (UserDashboard.FENCE ++ body ++ UserDashboard.FENCE)
          = UserDashboard.summary_and_actions_of 2 body)).
Proof.
  intros body.
  assert (Hb : no_backtick body)
    by (apply no_backtick_check; vm_compute; reflexivity).
  split; [exact Hb | ].
  exact (@code_fence_is_transparent 2 body Hb).
Defined.

Section Cache.

Import AdminDashboard.

Lemma cache_lookup_fresh (w : World) (v : DataFrame datetime) :
  cache_lookup (set_cache (Some (timer w, v)) w) = Some v.
Proof.
  unfold cache_lookup. cbn [cache timer set_cache].
  replace (timer w <? timer w + TTL)%Z with true
    by (symmetry; apply Z.ltb_lt; unfold TTL; lia).
  reflexivity.
Qed.

End Cache.

(** X7. Reading is idempotent: a second [load_data] right after a first one
    returns what the first returned, whether the first was served from the
    cache, read the file, or raised. *)
Theorem load_data_twice :
  forall w : World,
    fst (AdminDashboard.load_data (snd (AdminDashboard.load_data w)))
    = fst (AdminDashboard.load_data w).
Proof.
  intros w. rewrite (load_data_result w).
  destruct (AdminDashboard.cache_lookup w) as [v | ] eqn:Hc.
  - cbn [fst snd]. rewrite load_data_result, Hc. reflexivity.
  - destruct (read_frame w) as [v | e] eqn:Hr; cbn [fst snd].
    + rewrite load_data_result, cache_lookup_fresh. reflexivity.
    + rewrite load_data_result, Hc, Hr. reflexivity.
Qed.


Section Refreshing.

Import AdminDashboard.



(** An interaction started by a Refresh click: the cache is dropped and
    the script runs again without a click. *)
Lemma run_refresh (ui : controls) (w : World) :
  clicked ui = Some Refresh ->
  run ui w =
  run (no_click ui) (set_cache None (snd (initialize_csv (set_page [] w)))).
Proof.
  intros Hclick.
  assert (Hr : st_button Refresh ui = true)
    by (unfold st_button; rewrite Hclick; reflexivity).
  unfold run at 1. rewrite (@script_refresh ui (set_page [] w) Hr).
  rewrite (@run_pass (no_click ui) _ eq_refl). reflexivity.
Qed.


(** After a Refresh click, a record read from the file that passes the
    filters and whose summary cannot be sliced keeps the exports off the
    page. *)
Lemma refresh_blocked (ui : controls) (w : World) (L : DataFrame datetime)
    (row : Row datetime) :
  clicked ui = Some Refresh ->
  read_frame w = Ok L ->
  In row L ->
  date_ok (clock w) (date_filter ui) row
  && isin (rating_filter ui) (rating row) = true ->
  unsubscriptable (ai_summary row) = true ->
  forall label data,
    ~ In (st_download_button label data) (page (run ui w)).
Proof.
  intros Hclick HL Hin Hsel Hu. rewrite (@run_refresh ui w Hclick).
  set (w1 := set_cache None (snd (initialize_csv (set_page [] w)))).
  destruct (init_fields (set_page [] w)) as (_ & Hc0 & _ & _).
  assert (Hread : read_frame w1 = Ok L).
  { change (read_frame w1) with (read_frame (snd (initialize_csv (set_page [] w)))).
    rewrite read_frame_init. exact HL. }
  assert (Hfst : fst (load_data w1) = Ok L).
  { rewrite load_data_result. change (cache_lookup w1) with (@None (DataFrame datetime)).
    rewrite Hread. reflexivity. }
  assert (Hclock : clock w1 = clock w) by exact Hc0.
  apply (@blocked_page (no_click ui) w1 L row Hfst eq_refl Hin); [ | exact Hu].
  rewrite Hclock. exact Hsel.
Qed.

End Refreshing.



(** X12. When [load_data] returns no rows (the file is missing or holds
    only the header, or a fresh cache entry is empty), a run of the admin
    page that is not a Refresh click renders the notice that there are no
    reviews yet (static help text aside) and stops there: no export button
    and no clear-all control are rendered. *)
Theorem empty_store_page :
  forall (ui : AdminDashboard.controls) (w : World),
    AdminDashboard.st_button AdminDashboard.Refresh ui = false ->
    fst (AdminDashboard.load_data w) = Ok [] ->
    page (AdminDashboard.run ui w) = [st_info AdminDashboard.MSG_NO_REVIEWS].
Proof.
  intros ui w Hr Hl.
  rewrite (@run_pass ui w Hr), (@script_pass ui (set_page [] w) Hr). cbv zeta.
  destruct (load_data_init [] w) as (H1 & H2 & _).
  rewrite H1, Hl. cbn [AdminDashboard.df_empty AdminDashboard.finish is_Exception].
  world_simpl. rewrite H2. reflexivity.
Qed.

Lemma empty_store_witness :
  let ui := Samples.defaults in
  let w := Samples.world_with (Samples.always (lit "Thanks")) in
  (AdminDashboard.st_button AdminDashboard.Refresh ui = false
   /\ fst (AdminDashboard.load_data w) = Ok [])
  /\ page (AdminDashboard.run ui w) = [st_info AdminDashboard.MSG_NO_REVIEWS].
Proof.
  intros ui w. split; [split; reflexivity | ].
  exact (@empty_store_page ui w eq_refl eq_refl).
Defined.

Section Filtering.

Import AdminDashboard.

Lemma isin_In (l : list Z) (z : Z) : isin l z = true <-> In z l.
Proof.
  unfold isin. rewrite existsb_exists. split.
  - intros (x & Hx & He). apply Z.eqb_eq in He. subst x. exact Hx.
  - intros H. exists z. split; [exact H | apply Z.eqb_refl].
Qed.

(** The lexicographic order on keys is asymmetric. *)
Lemma lex_ltb_asym (a b : list Z) :
  lex_ltb a b = true -> lex_ltb b a = false.
Proof.
  revert b. induction a as [ | x a IH]; intros [ | y b] H; cbn [lex_ltb] in *;
    try discriminate; try reflexivity.
  apply orb_true_iff in H. destruct H as [H | H].
  - apply Z.ltb_lt in H.
    replace (y <? x)%Z with false by (symmetry; apply Z.ltb_ge; lia).
    replace (y =? x)%Z with false by (symmetry; apply Z.eqb_neq; lia).
    reflexivity.
  - apply andb_true_iff in H. destruct H as [He H]. apply Z.eqb_eq in He. subst y.
    rewrite Z.ltb_irrefl, Z.eqb_refl, (IH b H). reflexivity.
Qed.

(** Each of the four orders compares any two rows one way or the other. *)
Lemma order_total (c : sort_choice) (a b : Row datetime) :
  order c a b = false -> order c b a = true.
Proof.
  destruct c; cbn [order]; intros H.
  - apply negb_false_iff in H. unfold ltb in *. rewrite (lex_ltb_asym _ _ H). reflexivity.
  - apply negb_false_iff in H. unfold ltb in *. rewrite (lex_ltb_asym _ _ H). reflexivity.
  - apply Z.leb_gt in H. apply Z.leb_le. lia.
  - apply Z.leb_gt in H. apply Z.leb_le. lia.
Qed.

Lemma insert_row_sorted (c : sort_choice) (r : Row datetime) (l : DataFrame datetime) :
  Sorted (fun a b => order c a b = true) l ->
  Sorted (fun a b => order c a b = true) (insert_row (order c) r l).
Proof.
  intros Hs. induction Hs as [ | x l Hl IH Hx]; cbn [insert_row].
  - repeat constructor.
  - destruct (order c r x) eqn:E.
    + constructor; [constructor; assumption | constructor; exact E].
    + constructor; [exact IH | ].
      destruct Hx as [ | y l' Hxy]; cbn [insert_row].
      * constructor. apply order_total, E.
      * destruct (order c r y); constructor; [apply order_total, E | exact Hxy].
Qed.

Lemma sort_values_sorted (c : sort_choice) (l : DataFrame datetime) :
  Sorted (fun a b => order c a b = true) (sort_values (order c) l).
Proof.
  induction l as [ | x l IH]; cbn [sort_values]; [constructor | ].
  apply insert_row_sorted, IH.
Qed.

End Filtering.

(** X10. The filtered view shows exactly the loaded records that pass both
    filters, each as often as it is loaded: a record is shown if and only if
    it is loaded, its rating is one of the selected ratings and it passes
    the date filter; nothing is shown twice or invented, and with the date
    filter on All Time and the ratings of all records selected the view is
    a rearrangement of the whole frame. *)
Theorem filtered_view_is_the_selection :
  forall (now : datetime) (ui : AdminDashboard.controls) (df : DataFrame datetime),
    (forall row,
        In row (AdminDashboard.filtered_df now ui df) <->
        In row df
        /\ In (rating row) (AdminDashboard.rating_filter ui)
        /\ AdminDashboard.date_ok now (AdminDashboard.date_filter ui) row = true)
    /\ (length (AdminDashboard.filtered_df now ui df) <= length df)%nat
    /\ (AdminDashboard.date_filter ui = AdminDashboard.AllTime ->
        (forall row, In row df -> In (rating row) (AdminDashboard.rating_filter ui)) ->
        Permutation (AdminDashboard.filtered_df now ui df) df).
Proof.
  intros now ui df. pose proof (filtered_df_perm now ui df) as Hperm.
  split; [ | split].
  - intros row. split.
    + intros Hin. apply (Permutation_in _ Hperm) in Hin.
      apply filter_In in Hin. destruct Hin as [Hin Hb].
      apply andb_true_iff in Hb. destruct Hb as [Hd Hr].
      split; [exact Hin | ]. split; [apply isin_In, Hr | exact Hd].
    + intros (Hin & Hr & Hd). apply (Permutation_in _ (Permutation_sym Hperm)).
      apply filter_In. split; [exact Hin | ].
      apply andb_true_iff. split; [exact Hd | apply isin_In, Hr].
  - rewrite (Permutation_length Hperm). apply filter_length_le.
  - intros Hall Hsel. eapply perm_trans; [exact Hperm | ].
    rewrite Hall.
    rewrite (@filter_agree _ _ (fun _ => true) df).
    + clear. induction df as [ | x df IH]; cbn [filter]; [constructor | ].
      apply perm_skip, IH.
    + intros row Hin. cbn [AdminDashboard.date_ok andb].
      apply isin_In, Hsel, Hin.
Qed.

(** X11. The filtered view is in the chosen order: under Highest Rating no
    row is followed by a row with a higher rating, under Lowest Rating by
    one with a lower rating, under Newest First by a later one, under Oldest
    First by an earlier one. *)
Theorem filtered_view_is_sorted :
  forall (now : datetime) (ui : AdminDashboard.controls) (df : DataFrame datetime),
    Sorted
      (fun a b =>
         match AdminDashboard.sort_order ui with
         | AdminDashboard.HighestRating => (rating b <= rating a)%Z
         | AdminDashboard.LowestRating => (rating a <= rating b)%Z
         | AdminDashboard.NewestFirst => Time.ltb (timestamp a) (timestamp b) = false
         | AdminDashboard.OldestFirst => Time.ltb (timestamp b) (timestamp a) = false
         end)
      (AdminDashboard.filtered_df now ui df).
Proof.
  intros now ui df. unfold AdminDashboard.filtered_df.
  pose proof (sort_values_sorted (AdminDashboard.sort_order ui)
                (filter (AdminDashboard.date_ok now (AdminDashboard.date_filter ui))
                   (filter (fun row => AdminDashboard.isin
                                         (AdminDashboard.rating_filter ui) (rating row))
                      df))) as Hs.
  revert Hs. generalize (AdminDashboard.sort_values
                           (AdminDashboard.order (AdminDashboard.sort_order ui))
                           (filter (AdminDashboard.date_ok now (AdminDashboard.date_filter ui))
                              (filter (fun row => AdminDashboard.isin
                                         (AdminDashboard.rating_filter ui) (rating row))
                                 df))).
  intros l Hs. induction Hs as [ | x l Hl IH Hx]; constructor; [exact IH | ].
  destruct Hx as [ | y l' Hxy]; constructor.
  destruct (AdminDashboard.sort_order ui); cbn [AdminDashboard.order] in Hxy.
  - apply negb_true_iff, Hxy.
  - apply negb_true_iff, Hxy.
  - apply Z.leb_le, Hxy.
  - apply Z.leb_le, Hxy.
Qed.

Section Metrics.

Import AdminDashboard.

Lemma count_partition (df : DataFrame datetime) :
  (length (filter (fun row => (4 <=? rating row)%Z) df)
   + length (filter (fun row => (rating row <=? 2)%Z) df)
   + length (filter (fun row => (rating row =? 3)%Z) df) = length df)%nat.
Proof.
  induction df as [ | row df IH]; cbn [filter length]; [reflexivity | ].
  destruct (Z.leb_spec 4 (rating row)); destruct (Z.leb_spec (rating row) 2);
    destruct (Z.eqb_spec (rating row) 3); cbn [length]; lia.
Qed.

End Metrics.

(** X14. The Key Metrics counts partition the reviews: every loaded record
    is counted once, as positive (rating 4 or more), as critical (rating 2
    or less) or as a rating of 3; the caption under the critical count reads
    Needs attention exactly when some loaded record is critical; and with
    the date filter on All Time and the ratings of the critical records
    selected, the critical count is the number of rows of the critical
    export. *)
Theorem metrics_count_every_review_once :
  forall (now : datetime) (ui : AdminDashboard.controls) (df : DataFrame datetime),
    (AdminDashboard.positive_reviews df + AdminDashboard.critical_reviews df
     + length (filter (fun row => (rating row =? 3)%Z) df)
     = AdminDashboard.total_reviews df)%nat
    /\ (AdminDashboard.critical_delta df = lit "Needs attention" <->
        exists row, In row df /\ (rating row <= 2)%Z)
    /\ (AdminDashboard.date_filter ui = AdminDashboard.AllTime ->
        (forall row, In row df -> (rating row <= 2)%Z ->
           In (rating row) (AdminDashboard.rating_filter ui)) ->
        length (AdminDashboard.critical (AdminDashboard.filtered_df now ui df))
        = AdminDashboard.critical_reviews df).
Proof.
  intros now ui df. split; [apply count_partition | split].
  - unfold AdminDashboard.critical_delta, AdminDashboard.critical_reviews.
    destruct (filter (fun row => (rating row <=? 2)%Z) df) as [ | x l] eqn:Hf.
    + cbn [length Nat.ltb Nat.leb]. split.
      * intros H. apply (f_equal (@length N)) in H. vm_compute in H. discriminate H.
      * intros (row & Hin & Hle).
        assert (Hx : In row (filter (fun row => (rating row <=? 2)%Z) df)).
        { apply filter_In. split; [exact Hin | apply Z.leb_le, Hle]. }
        rewrite Hf in Hx. contradiction.
    + cbn [length Nat.ltb Nat.leb]. split; [ | reflexivity].
      intros _. exists x.
      assert (Hx : In x (filter (fun row => (rating row <=? 2)%Z) df))
        by (rewrite Hf; left; reflexivity).
      apply filter_In in Hx. destruct Hx as [Hin Hle].
      split; [exact Hin | apply Z.leb_le, Hle].
  - intros Hall Hsel. unfold AdminDashboard.critical_reviews.
    rewrite (Permutation_length (critical_filtered now ui df)).
    f_equal. apply filter_agree. intros row Hin. rewrite Hall.
    cbn [AdminDashboard.date_ok].
    destruct (rating row <=? 2)%Z eqn:Hle; [ | reflexivity].
    cbn [andb]. apply isin_In, Hsel; [exact Hin | apply Z.leb_le, Hle].
Qed.



(** X18. A record saved without a summary takes the exports off the admin
    page.  When [save_review] stores a record whose summary is [None] (the
    model's JSON had [null] there) or the empty string, the summary field of
    its line is empty and is read back as a missing value; once the admin
    page reads the file (here after a click on Refresh) with the record's
    rating selected and the date filter on All Time, the label of the
    record's card raises and the page offers no export at all.  The other
    fields of the store and of the record are texts that come back from the
    file as written. *)
Theorem missing_summary_blocks_the_exports :
  forall (S : list Line) (L : DataFrame datetime)
         (r : Z) (t a c : pystr) (s : pyobj)
         (ui : AdminDashboard.controls) (w : World),
    data_file w = Some S ->
    forallb verbatim_line S = true ->
    AdminDashboard.to_datetime_column (map as_read S) = Ok L ->
    Time.valid (clock w) ->
    (1678 <= year (clock w) <= 2261)%Z ->
    (1 <= r <= 5)%Z ->
    verbatim t = true ->
    verbatim a = true ->
    verbatim c = true ->
    s = PNone \/ s = PStr [] ->
    AdminDashboard.clicked ui = Some AdminDashboard.Refresh ->
    AdminDashboard.date_filter ui = AdminDashboard.AllTime ->
    In r (AdminDashboard.rating_filter ui) ->
    let w1 := snd (UserDashboard.save_review r t a s (PStr c) w) in
    map line_ai_summary (records w1) = map line_ai_summary S ++ [[]]
    /\ forall label data,
         ~ In (st_download_button label data) (page (AdminDashboard.run ui w1)).
Proof.
  intros S L r t a c s ui w Hf HS HL Hv Hy _ Vt Va Vc Hs Hclick Hdate Hsel w1.
  assert (Hcell : cell_text s = []) by (destruct Hs as [-> | ->]; reflexivity).
  assert (Hfile : data_file w1 =
                  Some (S ++ [format_row
                                (UserDashboard.new_row (clock w) r t a s (PStr c))])).
  { unfold w1. rewrite save_review_result, Hf. cbn [snd data_file set_data_file].
    rewrite (appended_verbatim S _ HS). reflexivity. }
  split.
  - unfold records. rewrite Hfile, map_app. cbn [map format_row line_ai_summary].
    unfold UserDashboard.new_row. cbn [ai_summary]. rewrite Hcell. reflexivity.
  - set (X' := mkRow (mkDatetime (year (clock w)) (month (clock w)) (day (clock w))
                        (hour (clock w)) (minute (clock w)) (second (clock w)) 0)
                 r (PStr t) (PStr a) NaN (PStr c)).
    assert (Hread : read_frame w1 = Ok (L ++ [X'])).
    { unfold read_frame. rewrite Hfile.
      rewrite (@parse_lines_snoc_missing S (clock w) r t a c s HS Vt Va Vc Hcell).
      rewrite length_app, length_map. cbn [length].
      replace (0 <? length S + 1)%nat with true by (symmetry; apply Nat.ltb_lt; lia).
      apply to_datetime_column_app; [exact HL | ].
      unfold AdminDashboard.convert_row.
      cbn [timestamp rating review ai_response ai_summary recommended_actions].
      rewrite (@to_datetime_strftime (clock w) Hv Hy). reflexivity. }
    apply (@refresh_blocked ui w1 (L ++ [X']) X' Hclick Hread).
    + apply in_or_app. right. left. reflexivity.
    + rewrite Hdate. cbn [AdminDashboard.date_ok andb rating X'].
      apply isin_In, Hsel.
    + reflexivity.
Qed.

Lemma missing_summary_witness :
  let S := [Samples.terrible_stored] in
  let L := [Samples.terrible_loaded] in
  let ui := Samples.click AdminDashboard.Refresh in
  let w := Samples.one_critical in
  let w1 := snd (UserDashboard.save_review 2 (lit "Too slow") (lit "We are sorry.")
                   PNone (PStr (lit "Speed up delivery")) w) in
  (data_file w = Some S
   /\ forallb verbatim_line S = true
   /\ AdminDashboard.to_datetime_column (map as_read S) = Ok L
   /\ Time.valid (clock w)
   /\ (1678 <= year (clock w) <= 2261)%Z)
  /\ map line_ai_summary (records w1) = map line_ai_summary S ++ [[]]
  /\ forall label data,
       ~ In (st_download_button label data) (page (AdminDashboard.run ui w1)).
Proof.
  intros S L ui w w1.
  assert (HS : forallb verbatim_line S = true) by (vm_compute; reflexivity).
  assert (HL : AdminDashboard.to_datetime_column (map as_read S) = Ok L)
    by (vm_compute; reflexivity).
  assert (Hv : Time.valid (clock w)) by (unfold Time.valid; cbn; lia).
  assert (Hy : (1678 <= year (clock w) <= 2261)%Z) by (cbn; lia).
  assert (Hr : (1 <= 2 <= 5)%Z) by lia.
  split.
  { split; [reflexivity | ]. split; [exact HS | ]. split; [exact HL | ].
    split; [exact Hv | exact Hy]. }
  refine (@missing_summary_blocks_the_exports S L 2 (lit "Too slow")
            (lit "We are sorry.") (lit "Speed up delivery") PNone ui w
            eq_refl HS HL Hv Hy Hr _ _ _ (or_introl eq_refl) eq_refl eq_refl _);
    try (vm_compute; reflexivity).
  cbn. tauto.
Defined.

Section Insights.

Lemma firstn_filter_prefix {A} (f : A -> bool) (n : nat) (older newer : list A) :
  (n <= length (filter f older))%nat ->
  firstn n (filter f (older ++ newer)) = firstn n (filter f older).
Proof.
  intros H. rewrite filter_app, firstn_app.
  replace (n - length (filter f older))%nat with 0%nat by lia.
  cbn [firstn]. apply app_nil_r.
Qed.

End Insights.

(** X17. The two Insights panels list the first three matching records in
    store order.  Most Common Issues shows the critical records (rating 2
    or less) of the frame, Recent Highlights its five-star records: each
    panel is the beginning of the list of matching records, in the order of
    the frame, and shows three of them, or all of them when there are fewer.
    So once the frame holds three matching records, records stored later
    never reach the panel, however recent. *)
Theorem insights_list_the_first_three :
  forall df : DataFrame datetime,
    let critical := filter (fun row => (rating row <=? 2)%Z) df in
    let five_star := filter (fun row => (rating row =? 5)%Z) df in
    (exists rest, critical = AdminDashboard.most_common_issues df ++ rest)
    /\ length (AdminDashboard.most_common_issues df) = Nat.min 3 (length critical)
    /\ (exists rest, five_star = AdminDashboard.recent_highlights df ++ rest)
    /\ length (AdminDashboard.recent_highlights df) = Nat.min 3 (length five_star)
    /\ (forall later,
          (3 <= length critical)%nat ->
          AdminDashboard.most_common_issues (df ++ later)
          = AdminDashboard.most_common_issues df)
    /\ (forall later,
          (3 <= length five_star)%nat ->
          AdminDashboard.recent_highlights (df ++ later)
          = AdminDashboard.recent_highlights df).
Proof.
  intros df critical five_star.
  unfold AdminDashboard.most_common_issues, AdminDashboard.recent_highlights.
  fold critical five_star.
  split; [exists (skipn 3 critical); symmetry; apply firstn_skipn | ].
  split; [apply length_firstn | ].
  split; [exists (skipn 3 five_star); symmetry; apply firstn_skipn | ].
  split; [apply length_firstn | ].
  split; intros later H; apply firstn_filter_prefix, H.
Qed.
